(** * IDEAS-RMS: demand forecasting and dynamic pricing engine

    A shallow embedding of [src/services/forecasting.py] (class
    [ForecastingEngine]) and [src/services/pricing_engine.py] (class
    [PricingEngine]) over the tables of [src/models/database.py].

    Conventions of the embedding.
    - Python/numpy floating-point numbers are idealised as exact rationals
      ([Q]); statements about them use [==], [<] and [<=] of [Q].
    - A [datetime.date] is its proleptic Gregorian ordinal
      ([date.toordinal()]), a [Z]; a [timedelta] in days is a [Z].
    - A SQLAlchemy session is a record of tables, each table the list of
      its rows in storage order; [query(..).filter(..).all()] is
      [List.filter], [.first()] the head of it, [.count()] its length.
    - A method of an engine object is a computation in a state-and-exception
      monad over the object's attributes (the session included): reading
      [self.x] is [gets x], an assignment to [self.x] is [modify].
    - The wall clock ([datetime.now()], [date.today()]) is an explicit
      argument [now]. *)

From Stdlib Require Import QArith Qminmax Qround Qabs Lqa ZArith String List.
From Stdlib Require Import Floats.PrimFloat.
From stdpp Require Import base gmap strings list.

Open Scope Q_scope.

(** ** Python and numpy arithmetic *)

Definition Qltb (x y : Q) : bool := negb (Qle_bool y x).

(** [np.clip(x, lo, hi)] is [minimum(maximum(x, lo), hi)]. *)
Definition np_clip (x lo hi : Q) : Q := Qmin (Qmax x lo) hi.

(** Sums keep their running total in lowest terms. *)
Definition Qsum (l : list Q) : Q := foldl (fun acc x => Qred (acc + x)) 0 l.

Definition Qlen (l : list Q) : Q := inject_Z (Z.of_nat (length l)).

(** [np.mean]; every call site passes a non-empty list. *)
Definition np_mean (l : list Q) : Q := Qsum l / Qlen l.

(** [np.var] (population variance, [ddof = 0]). *)
Definition np_var (l : list Q) : Q :=
  let mu := np_mean l in
  np_mean (List.map (fun x => (x - mu) * (x - mu)) l).

Fixpoint insert_sorted (x : Q) (l : list Q) : list Q :=
  match l with
  | [] => [x]
  | y :: l' => if Qle_bool x y then x :: l else y :: insert_sorted x l'
  end.

Definition sort_rates (l : list Q) : list Q := foldr insert_sorted [] l.

(** [np.median]: the middle element of the sorted list, or the mean of the
    two middle elements. *)
Definition np_median (l : list Q) : Q :=
  let s := sort_rates l in
  let n := length s in
  if Nat.even n
  then (nth (n / 2 - 1) s 0 + nth (n / 2) s 0) / 2
  else nth (n / 2) s 0.

(** Rounding to the nearest integer, ties to even ([np.rint]). *)
Definition round_half_even (x : Q) : Z :=
  let f := Qfloor x in
  match Qcompare (x - inject_Z f) (1 # 2) with
  | Lt => f
  | Gt => (f + 1)%Z
  | Eq => if Z.even f then f else (f + 1)%Z
  end.

(** [round(x, ndigits)] for a non-negative [ndigits]. *)
Definition py_round (x : Q) (ndigits : Z) : Q :=
  let scale := inject_Z (10 ^ ndigits) in
  inject_Z (round_half_even (x * scale)) / scale.

(** ** Exceptions and the method monad *)

Inductive exn : Set :=
| ZeroDivisionError
| UnboundLocalError.

Inductive outcome (A : Type) : Type :=
| Returned (a : A)
| Raised (e : exn).
Arguments Returned {A} a.
Arguments Raised {A} e.

(** A method body over an object of type [S]: it yields a value or raises,
    and leaves the object in a (possibly changed) state. *)
Definition M (S A : Type) : Type := S -> outcome A * S.

Definition ret {S A} (a : A) : M S A := fun s => (Returned a, s).

Definition raise {S A} (e : exn) : M S A := fun s => (Raised e, s).

Definition bind {S A B} (m : M S A) (k : A -> M S B) : M S B :=
  fun s =>
    match m s with
    | (Returned a, s') => k a s'
    | (Raised e, s') => (Raised e, s')
    end.

Definition gets {S A} (f : S -> A) : M S A := fun s => (Returned (f s), s).

Definition modify {S} (f : S -> S) : M S unit := fun s => (Returned tt, f s).

Notation "x <- c1 ; c2" := (bind c1 (fun x => c2))
  (at level 20, c1 at level 100, c2 at level 200, only parsing).

(** A [for] loop that appends one computed element per item. *)
Fixpoint for_each {S A B} (l : list A) (body : A -> M S B) : M S (list B) :=
  match l with
  | [] => ret []
  | x :: l' =>
      y <- body x;
      ys <- for_each l' body;
      ret (y :: ys)
  end.

(** Python's true division [a / b] on ints and floats. *)
Definition py_div {S} (a b : Q) : M S Q :=
  if Qeq_bool b 0 then raise ZeroDivisionError else ret (a / b).

(** [read_only m]: whatever the outcome, the object is left as it was. *)
Definition read_only {S A} (m : M S A) : Prop :=
  forall s, snd (m s) = s.

(** ** Dates *)

Definition date : Set := Z.
Bind Scope Z_scope with date.

(** [date.weekday()]: Monday is 0, Sunday is 6. *)
Definition weekday (d : date) : Z := ((d + 6) mod 7)%Z.

Definition DAYS_IN_MONTH (month : Z) : Z :=
  nth (Z.to_nat month) [-1; 31; 28; 31; 30; 31; 30; 31; 31; 30; 31; 30; 31]%Z 0%Z.

Definition DAYS_BEFORE_MONTH (month : Z) : Z :=
  nth (Z.to_nat month) [-1; 0; 31; 59; 90; 120; 151; 181; 212; 243; 273; 304; 334]%Z 0%Z.

(** The (year, month, day) of an ordinal, as [datetime._ord2ymd] computes it. *)
Definition ord2ymd (ordinal : date) : Z * Z * Z :=
  let n := (ordinal - 1)%Z in
  let n400 := (n / 146097)%Z in
  let n := (n mod 146097)%Z in
  let n100 := (n / 36524)%Z in
  let n := (n mod 36524)%Z in
  let n4 := (n / 1461)%Z in
  let n := (n mod 1461)%Z in
  let n1 := (n / 365)%Z in
  let n := (n mod 365)%Z in
  let year := (n400 * 400 + 1 + n100 * 100 + n4 * 4 + n1)%Z in
  if ((n1 =? 4) || (n100 =? 4))%Z then ((year - 1)%Z, 12%Z, 31%Z)
  else
    let leapyear := ((n1 =? 3) && (negb (n4 =? 24) || (n100 =? 3)))%Z in
    let month := Z.shiftr (n + 50) 5 in
    let preceding :=
      (DAYS_BEFORE_MONTH month + (if (2 <? month)%Z && leapyear then 1 else 0))%Z in
    if (n <? preceding)%Z
    then
      let month' := (month - 1)%Z in
      let preceding' :=
        (preceding - (DAYS_IN_MONTH month'
                      + (if (month' =? 2)%Z && leapyear then 1 else 0)))%Z in
      (year, month', (n - preceding' + 1)%Z)
    else (year, month, (n - preceding + 1)%Z).

Definition date_month (d : date) : Z := snd (fst (ord2ymd d)).
Definition date_day (d : date) : Z := snd (ord2ymd d).

(** A [datetime]: its date and the microseconds elapsed since midnight. *)
Record datetime : Set := mk_datetime {
  dt_date : date;
  dt_micros : Z
}.

Definition datetime_leb (a b : datetime) : bool :=
  ((dt_date a <? dt_date b) || ((dt_date a =? dt_date b) && (dt_micros a <=? dt_micros b)))%Z.

(** [dt - timedelta(days=n)]. *)
Definition minus_days (dt : datetime) (n : Z) : datetime :=
  {| dt_date := (dt_date dt - n)%Z; dt_micros := dt_micros dt |}.

(** ** The tables of [models/database.py] *)

Module RoomType.
Record t : Type := mk {
  name : string;
  capacity : Z;
  base_rate : Q
}.
End RoomType.

Module Inventory.
Record t : Type := mk {
  room_id : Z;
  room_type : string;
  status : string
}.
End Inventory.

Module Booking.
Record t : Type := mk {
  room_type : string;
  checkin : date;
  checkout : date;
  rate : Q;
  channel : string;
  created_at : datetime;
  booking_status : string
}.
End Booking.

Module CompetitorRate.
Record t : Type := mk {
  date : date;
  competitor_id : string;
  room_type : string;
  rate : Q;
  availability : bool
}.
End CompetitorRate.

Module PriceHistory.
Record t : Type := mk {
  date : date;
  room_type : string;
  published_rate : Q;
  channel : string;
  floor : Q;
  ceiling : Q;
  source : string
}.
End PriceHistory.

(** [multiplier] is a nullable column with default 1.0; a row is modelled
    with a number in it. *)
Module EventMultiplier.
Record t : Type := mk {
  date : date;
  event_name : string;
  multiplier : Q
}.
End EventMultiplier.

(** [forecasted_demand] is a nullable column; a row is modelled with a
    number in it, as the rows the application writes have. On a row holding
    NULL the arithmetic of [update_forecast_accuracy] and of
    [calculate_dynamic_price] raises TypeError, which [exn] does not list:
    what is stated of a call that returns is stated for stores without such
    rows. *)
Module ForecastData.
Record t : Type := mk {
  date : date;
  room_type : string;
  forecasted_demand : Q;
  created_at : datetime
}.
End ForecastData.

Record Session : Type := mk_session {
  room_types : list RoomType.t;
  inventory : list Inventory.t;
  bookings : list Booking.t;
  competitor_rates : list CompetitorRate.t;
  price_history : list PriceHistory.t;
  event_multipliers : list EventMultiplier.t;
  forecast_data : list ForecastData.t
}.

(** [session.query(RoomType).filter_by(name=room_type).first()] *)
Definition query_room_type (db : Session) (room_type : string) : option RoomType.t :=
  head (List.filter (fun rt => String.eqb (RoomType.name rt) room_type) (room_types db)).

(** [session.query(Inventory).filter_by(room_type=room_type).count()] *)
Definition count_inventory (db : Session) (room_type : string) : Z :=
  Z.of_nat (length (List.filter (fun r => String.eqb (Inventory.room_type r) room_type)
                                (inventory db))).

(** [session.query(Booking).filter_by(room_type=room_type, checkin=d).count()] *)
Definition count_bookings (db : Session) (room_type : string) (d : date) : Z :=
  Z.of_nat (length (List.filter
    (fun b => String.eqb (Booking.room_type b) room_type && (Booking.checkin b =? d)%Z)
    (bookings db))).

(** [session.query(CompetitorRate).filter_by(room_type=.., date=..).all()] *)
Definition query_competitor_rates (db : Session) (room_type : string) (d : date)
  : list CompetitorRate.t :=
  List.filter
    (fun cr => String.eqb (CompetitorRate.room_type cr) room_type
               && (CompetitorRate.date cr =? d)%Z)
    (competitor_rates db).

(** [session.query(EventMultiplier).filter_by(date=d).first()] *)
Definition query_event (db : Session) (d : date) : option EventMultiplier.t :=
  head (List.filter (fun e => (EventMultiplier.date e =? d)%Z) (event_multipliers db)).

(** [session.query(ForecastData).filter_by(room_type=.., date=..)], all rows. *)
Definition query_forecasts (db : Session) (room_type : string) (d : date)
  : list ForecastData.t :=
  List.filter
    (fun f => String.eqb (ForecastData.room_type f) room_type
              && (ForecastData.date f =? d)%Z)
    (forecast_data db).

(** The days visited by [current = start; while current <= end: ...;
    current += timedelta(days=1)]. *)
Definition date_range (start_date end_date : date) : list date :=
  seqZ start_date (end_date - start_date + 1).

(** ** [PricingEngine] ([services/pricing_engine.py]) *)

Module PricingEngine.

Module Components.
Record t : Type := mk {
  forecasted_demand : Q;
  competitor_index : Q;
  event_multiplier : Q;
  time_factor : Q;
  demand_factor : Q;
  competitor_factor : Q;
  event_factor : Q;
  time_discount_factor : Q
}.
End Components.

Module Coefficients.
Record t : Type := mk {
  alpha : Q;
  beta : Q;
  gamma : Q;
  delta : Q
}.
End Coefficients.

(** The dictionary returned by [calculate_dynamic_price]. *)
Module PriceInfo.
Record t : Type := mk {
  room_type : string;
  date : date;
  base_rate : Q;
  final_price : Q;
  raw_price : Q;
  floor : Q;
  ceiling : Q;
  components : Components.t;
  coefficients : Coefficients.t
}.
End PriceInfo.

(** The attributes of a [PricingEngine] object. *)
Record t : Type := mk {
  session : Session;
  alpha : Q;
  beta : Q;
  gamma : Q;
  delta : Q;
  baseline_demand : Q;
  max_lead_time : Z
}.

Definition __init__ (db : Session) : t :=
  {| session := db;
     alpha := 0.3;
     beta := 0.25;
     gamma := 0.02;
     delta := 1.0;
     baseline_demand := 0.75;
     max_lead_time := 365 |}.

(** [override_params.get(key, dflt) if override_params else dflt]: [None]
    and the empty dictionary are both falsy. *)
Definition override (override_params : option (gmap string Q))
           (key : string) (dflt : Q) : Q :=
  match override_params with
  | Some params =>
      if (size params =? 0)%nat then dflt else default dflt (params !! key)
  | None => dflt
  end.

(** The pricing formula of [calculate_dynamic_price]. *)
Definition demand_factor (alpha forecasted_demand baseline_demand : Q) : Q :=
  1 + alpha * (forecasted_demand - baseline_demand).

Definition competitor_factor (beta competitor_index : Q) : Q :=
  1 + beta * (competitor_index - 1).

Definition event_factor (delta event_multiplier : Q) : Q :=
  1 + delta * (event_multiplier - 1).

Definition time_discount_factor (gamma time_factor : Q) : Q :=
  1 - gamma * time_factor.

Definition raw_price (base_rate demand_factor competitor_factor
                      event_factor time_discount_factor : Q) : Q :=
  base_rate * demand_factor * competitor_factor
  * event_factor * time_discount_factor.

Section Methods.

Variable now : datetime.

Definition today : date := dt_date now.

Definition get_base_rate (room_type : string) : M t Q :=
  room_type_obj <- gets (fun self => query_room_type (session self) room_type);
  ret (match room_type_obj with
       | Some obj => RoomType.base_rate obj
       | None => 300
       end).

Definition _calculate_demand_fallback (room_type : string) (target_date : date)
  : M t Q :=
  let past_dates :=
    List.map (fun weeks_back => (target_date - 7 * weeks_back)%Z) [1; 2; 3; 4]%Z in
  booking_counts <-
    for_each past_dates (fun past_date =>
      gets (fun self => count_bookings (session self) room_type past_date));
  match booking_counts with
  | _ :: _ =>
      let avg_bookings := np_mean (List.map inject_Z booking_counts) in
      total_rooms <- gets (fun self => count_inventory (session self) room_type);
      ret (Qmin (avg_bookings / inject_Z (Z.max total_rooms 1)) 1.0)
  | [] => gets baseline_demand
  end.

Definition get_forecasted_demand (room_type : string) (target_date : date)
  : M t Q :=
  forecast <- gets (fun self =>
                head (query_forecasts (session self) room_type target_date));
  match forecast with
  | Some f => ret (ForecastData.forecasted_demand f)
  | None => _calculate_demand_fallback room_type target_date
  end.

(** [median_comp_rate / base_rate] is a numpy division: for a zero
    [base_rate] it yields [inf] or [nan], which [Q] does not represent;
    statements that go through it assume a non-zero base rate. *)
Definition get_competitor_index (room_type : string) (target_date : date)
  : M t Q :=
  base_rate <- get_base_rate room_type;
  competitor_rates <- gets (fun self =>
    query_competitor_rates (session self) room_type target_date);
  match competitor_rates with
  | _ :: _ =>
      let rates := List.map CompetitorRate.rate
                     (List.filter CompetitorRate.availability competitor_rates) in
      match rates with
      | _ :: _ =>
          let median_comp_rate := np_median rates in
          ret (median_comp_rate / base_rate)
      | [] => ret 1.0
      end
  | [] => ret 1.0
  end.

Definition get_event_multiplier (target_date : date) : M t Q :=
  event <- gets (fun self => query_event (session self) target_date);
  ret (match event with
       | Some e => EventMultiplier.multiplier e
       | None => 1.0
       end).

Definition calculate_time_factor (target_date : date) (lead_time_days : option Z)
  : M t Q :=
  let lead_time_days :=
    match lead_time_days with
    | None => (target_date - today)%Z
    | Some n => n
    end in
  if (lead_time_days <=? 0)%Z then ret 0
  else
    max_lead_time <- gets max_lead_time;
    ratio <- py_div (inject_Z lead_time_days) (inject_Z max_lead_time);
    let normalized_lead_time := Qmin ratio 1.0 in
    ret (normalized_lead_time * 0.1).

Definition get_floor_ceiling (room_type : string) : M t (Q * Q) :=
  base_rate <- get_base_rate room_type;
  let floor := base_rate * 0.7 in
  let ceiling := base_rate * 1.5 in
  ret (floor, ceiling).

Definition calculate_dynamic_price (room_type : string) (target_date : date)
           (override_params : option (gmap string Q)) : M t PriceInfo.t :=
  self_alpha <- gets alpha;
  self_beta <- gets beta;
  self_gamma <- gets gamma;
  self_delta <- gets delta;
  let alpha := override override_params "alpha" self_alpha in
  let beta := override override_params "beta" self_beta in
  let gamma := override override_params "gamma" self_gamma in
  let delta := override override_params "delta" self_delta in
  base_rate <- get_base_rate room_type;
  forecasted_demand <- get_forecasted_demand room_type target_date;
  competitor_index <- get_competitor_index room_type target_date;
  event_multiplier <- get_event_multiplier target_date;
  time_factor <- calculate_time_factor target_date None;
  floor_ceiling <- get_floor_ceiling room_type;
  let floor := fst floor_ceiling in
  let ceiling := snd floor_ceiling in
  self_baseline_demand <- gets baseline_demand;
  let demand_factor := demand_factor alpha forecasted_demand self_baseline_demand in
  let competitor_factor := competitor_factor beta competitor_index in
  let event_factor := event_factor delta event_multiplier in
  let time_discount_factor := time_discount_factor gamma time_factor in
  let raw_price := raw_price base_rate demand_factor competitor_factor
                             event_factor time_discount_factor in
  let final_price := np_clip raw_price floor ceiling in
  ret {| PriceInfo.room_type := room_type;
         PriceInfo.date := target_date;
         PriceInfo.base_rate := base_rate;
         PriceInfo.final_price := py_round final_price 2;
         PriceInfo.raw_price := py_round raw_price 2;
         PriceInfo.floor := floor;
         PriceInfo.ceiling := ceiling;
         PriceInfo.components :=
           {| Components.forecasted_demand := py_round forecasted_demand 3;
              Components.competitor_index := py_round competitor_index 3;
              Components.event_multiplier := py_round event_multiplier 3;
              Components.time_factor := py_round time_factor 3;
              Components.demand_factor := py_round demand_factor 3;
              Components.competitor_factor := py_round competitor_factor 3;
              Components.event_factor := py_round event_factor 3;
              Components.time_discount_factor := py_round time_discount_factor 3 |};
         PriceInfo.coefficients :=
           {| Coefficients.alpha := alpha;
              Coefficients.beta := beta;
              Coefficients.gamma := gamma;
              Coefficients.delta := delta |} |}.

Definition calculate_prices_for_period (room_type : string)
           (start_date end_date : date)
           (override_params : option (gmap string Q)) : M t (list PriceInfo.t) :=
  for_each (date_range start_date end_date) (fun current_date =>
    calculate_dynamic_price room_type current_date override_params).

Definition save_pricing_to_history (pricing_data : list PriceInfo.t)
           (channel source : string) : M t unit :=
  let rows :=
    List.map (fun price_info =>
      {| PriceHistory.date := PriceInfo.date price_info;
         PriceHistory.room_type := PriceInfo.room_type price_info;
         PriceHistory.published_rate := PriceInfo.final_price price_info;
         PriceHistory.channel := channel;
         PriceHistory.floor := PriceInfo.floor price_info;
         PriceHistory.ceiling := PriceInfo.ceiling price_info;
         PriceHistory.source := source |}) pricing_data in
  modify (fun self =>
    let db := session self in
    {| session :=
         {| room_types := room_types db;
            inventory := inventory db;
            bookings := bookings db;
            competitor_rates := competitor_rates db;
            price_history := price_history db ++ rows;
            event_multipliers := event_multipliers db;
            forecast_data := forecast_data db |};
       alpha := alpha self;
       beta := beta self;
       gamma := gamma self;
       delta := delta self;
       baseline_demand := baseline_demand self;
       max_lead_time := max_lead_time self |}).

Definition update_coefficients (new_alpha new_beta new_gamma new_delta : option Q)
  : M t unit :=
  modify (fun self =>
    {| session := session self;
       alpha := default (alpha self) new_alpha;
       beta := default (beta self) new_beta;
       gamma := default (gamma self) new_gamma;
       delta := default (delta self) new_delta;
       baseline_demand := baseline_demand self;
       max_lead_time := max_lead_time self |}).

(** The body of [for room_type in room_types] in [reprice_all_rooms]:
    [results[room_type.name] = prices]. *)
Fixpoint reprice_loop (room_types : list RoomType.t) (target_date end_date : date)
         (results : gmap string (list PriceInfo.t))
  : M t (gmap string (list PriceInfo.t)) :=
  match room_types with
  | [] => ret results
  | room_type :: rest =>
      prices <- calculate_prices_for_period (RoomType.name room_type)
                  target_date end_date None;
      reprice_loop rest target_date end_date
        (<[RoomType.name room_type := prices]> results)
  end.

Definition reprice_all_rooms (target_date : option date) (days_ahead : Z)
  : M t (gmap string (list PriceInfo.t)) :=
  let target_date :=
    match target_date with
    | None => today
    | Some d => d
    end in
  let end_date := (target_date + days_ahead)%Z in
  all_room_types <- gets (fun self => room_types (session self));
  reprice_loop all_room_types target_date end_date ∅.

End Methods.

End PricingEngine.

(** ** [ForecastingEngine] ([services/forecasting.py]) *)

(** [LinearRegression().fit(X, y).coef_[0]] for the single feature [X]: the
    least-squares slope. *)
Definition linear_regression_slope (X y : list Q) : Q :=
  let x_mean := np_mean X in
  let y_mean := np_mean y in
  let sxy := Qsum (zip_with (fun x v => (x - x_mean) * (v - y_mean)) X y) in
  let sxx := Qsum (List.map (fun x => (x - x_mean) * (x - x_mean)) X) in
  sxy / sxx.

Module ForecastingEngine.

(** One element of [historical_data]. *)
Module DataPoint.
Record t : Type := mk {
  date : date;
  occupancy : Q;
  bookings : Z
}.
End DataPoint.

Module ForecastComponents.
Record t : Type := mk {
  base_demand : Q;
  seasonality_factor : Q;
  trend_factor : Q;
  day_of_week_factor : Q;
  lead_time_factor : Q;
  competitor_factor : Q;
  event_factor : Q
}.
End ForecastComponents.

(** The dictionary returned by [calculate_demand_forecast]. *)
Module Forecast.
Record t : Type := mk {
  room_type : string;
  target_date : date;
  forecasted_demand : Q;
  components : ForecastComponents.t;
  confidence : Q;
  model_used : string
}.
End Forecast.

(** The dictionary returned by [update_forecast_accuracy]. *)
Module Accuracy.
Record t : Type := mk {
  room_type : string;
  date : date;
  predicted_demand : Q;
  actual_occupancy : Q;
  absolute_error : Q;
  percentage_error : Q;
  accuracy_score : Q
}.
End Accuracy.

Module RevenueImpact.
Record t : Type := mk {
  base_revenue : Q;
  scenario_revenue : Q;
  revenue_difference : Q;
  percentage_impact : Q
}.
End RevenueImpact.

Module Scenario.
Record t : Type := mk {
  demand : Q;
  probability : Q;
  description : string;
  revenue_impact : RevenueImpact.t
}.
End Scenario.

(** The dictionary returned by [generate_demand_scenarios]. *)
Module Scenarios.
Record t : Type := mk {
  room_type : string;
  target_date : date;
  base_forecast : Q;
  scenarios : gmap string Scenario.t
}.
End Scenarios.

(** The attributes of a [ForecastingEngine] object. *)
Record t : Type := mk {
  session : Session;
  smoothing_alpha : Q;
  lookback_days : Z;
  forecast_horizon : Z
}.

Definition __init__ (db : Session) : t :=
  {| session := db;
     smoothing_alpha := 0.3;
     lookback_days := 90;
     forecast_horizon := 30 |}.

(** [.order_by(ForecastData.created_at.desc()).first()] *)
Definition latest_forecast (rows : list ForecastData.t) : option ForecastData.t :=
  foldl (fun best f =>
           match best with
           | None => Some f
           | Some b =>
               if datetime_leb (ForecastData.created_at f) (ForecastData.created_at b)
               then Some b else Some f
           end) None rows.

(** [groups[key(dp)].append(dp['occupancy'])] over the series. *)
Definition group_occupancy (key : date -> Z) (historical_data : list DataPoint.t)
  : gmap Z (list Q) :=
  foldl (fun groups data_point =>
           let k := key (DataPoint.date data_point) in
           <[k := default [] (groups !! k) ++ [DataPoint.occupancy data_point]]> groups)
        ∅ historical_data.

(** [daily_occupancy]: the number of bookings per arrival date. *)
Definition count_by_arrival (bookings : list Booking.t) : gmap Z Z :=
  foldl (fun daily_occupancy booking =>
           let arrival_date := Booking.checkin booking in
           <[arrival_date := (default 0 (daily_occupancy !! arrival_date) + 1)%Z]>
             daily_occupancy)
        ∅ bookings.

(** [Booking.room_type == room_type, Booking.checkin >= start_date,
    Booking.checkin <= end_date] *)
Definition bookings_between (db : Session) (room_type : string)
           (start_date end_date : date) : list Booking.t :=
  List.filter (fun b => String.eqb (Booking.room_type b) room_type
                        && (start_date <=? Booking.checkin b)%Z
                        && (Booking.checkin b <=? end_date)%Z)
              (bookings db).

Section Methods.

Variable now : datetime.

(** [RandomForestRegressor(n_estimators=50, random_state=42)] fitted on
    [(X, y)] and asked for one prediction; [None] when the library
    raises. *)
Variable RandomForestRegressor : list (list Z) -> list Q -> list Z -> option Q.

Definition today : date := dt_date now.

Definition _get_historical_bookings (room_type : string) : M t (list DataPoint.t) :=
  let end_date := today in
  lookback_days <- gets lookback_days;
  let start_date := (end_date - lookback_days)%Z in
  bookings <- gets (fun self =>
    bookings_between (session self) room_type start_date end_date);
  total_rooms <- gets (fun self => count_inventory (session self) room_type);
  let daily_occupancy := count_by_arrival bookings in
  for_each (date_range start_date end_date) (fun current_date =>
    let bookings_count := default 0%Z (daily_occupancy !! current_date) in
    occupancy_rate <- py_div (inject_Z bookings_count)
                             (inject_Z (Z.max total_rooms 1));
    ret {| DataPoint.date := current_date;
           DataPoint.occupancy := occupancy_rate;
           DataPoint.bookings := bookings_count |}).

Definition _calculate_seasonality (target_date : date)
           (historical_data : list DataPoint.t) : M t Q :=
  match historical_data with
  | [] => ret 1.0
  | _ :: _ =>
      let monthly_avg := group_occupancy date_month historical_data in
      match monthly_avg !! date_month target_date with
      | Some values =>
          let month_avg := np_mean values in
          let overall_avg := np_mean (List.map DataPoint.occupancy historical_data) in
          ret (month_avg / Qmax overall_avg 0.01)
      | None => ret 1.0
      end
  end.

(** The [except] branch is left out: fitting a line through at least seven
    points does not raise. *)
Definition _calculate_trend (historical_data : list DataPoint.t) : M t Q :=
  if (length historical_data <? 7)%nat then ret 1.0
  else
    let X := List.map inject_Z (seqZ 0 (Z.of_nat (length historical_data))) in
    let y := List.map DataPoint.occupancy historical_data in
    let slope := linear_regression_slope X y in
    let trend_factor := 1.0 + slope * 10 in
    ret (np_clip trend_factor 0.8 1.2).

Definition _calculate_dow_factor (target_date : date)
           (historical_data : list DataPoint.t) : M t Q :=
  match historical_data with
  | [] => ret 1.0
  | _ :: _ =>
      let dow_avg := group_occupancy weekday historical_data in
      let target_dow := weekday target_date in
      match dow_avg !! target_dow with
      | Some values =>
          let dow_mean := np_mean values in
          let overall_mean := np_mean (List.map DataPoint.occupancy historical_data) in
          ret (dow_mean / Qmax overall_mean 0.01)
      | None => ret 1.0
      end
  end.

Definition _calculate_lead_time_impact (room_type : string) (target_date : date)
  : M t Q :=
  let lead_time_days := (target_date - today)%Z in
  if (lead_time_days <=? 0)%Z then ret 1.1
  else
    bookings <- gets (fun self =>
      List.filter (fun b => String.eqb (Booking.room_type b) room_type
                            && datetime_leb (minus_days now 60) (Booking.created_at b))
                  (bookings (session self)));
    let historical_lead_times :=
      List.map (fun booking =>
                  (Booking.checkin booking - dt_date (Booking.created_at booking))%Z)
               bookings in
    match historical_lead_times with
    | _ :: _ =>
        let avg_lead_time := np_mean (List.map inject_Z historical_lead_times) in
        if Qltb (inject_Z lead_time_days) (avg_lead_time * 0.5) then ret 1.05
        else if Qltb (avg_lead_time * 2) (inject_Z lead_time_days) then ret 0.95
        else ret 1.0
    | [] => ret 1.0
    end.

Definition _get_competitor_impact (room_type : string) (target_date : date)
  : M t Q :=
  competitor_rates <- gets (fun self =>
    query_competitor_rates (session self) room_type target_date);
  match competitor_rates with
  | [] => ret 1.0
  | _ :: _ =>
      our_base_rate <- gets (fun self => query_room_type (session self) room_type);
      match our_base_rate with
      | None => ret 1.0
      | Some our_base_rate =>
          let competitor_avg :=
            np_mean (List.map CompetitorRate.rate competitor_rates) in
          let base_rate := RoomType.base_rate our_base_rate in
          if Qeq_bool base_rate 0
          then
            (* numpy division by zero: the ratio is inf, -inf or nan *)
            if Qltb 0 competitor_avg then ret 1.05
            else if Qltb competitor_avg 0 then ret 0.95
            else ret 1.0
          else
            let price_ratio := competitor_avg / base_rate in
            if Qltb 1.1 price_ratio then ret 1.05
            else if Qltb price_ratio 0.9 then ret 0.95
            else ret 1.0
      end
  end.

Definition _get_event_impact (target_date : date) : M t Q :=
  event <- gets (fun self => query_event (session self) target_date);
  match event with
  | Some e => ret (Qmin (EventMultiplier.multiplier e) 1.5)
  | None => ret 1.0
  end.

Definition _exponential_smoothing_forecast (historical_data : list DataPoint.t)
  : M t Q :=
  match List.map DataPoint.occupancy historical_data with
  | [] => ret 0.75
  | first :: rest =>
      smoothing_alpha <- gets smoothing_alpha;
      ret (foldl (fun smoothed value =>
                    smoothing_alpha * value + (1 - smoothing_alpha) * smoothed)
                 first rest)
  end.

Definition feature_vector (date_obj : date) : list Z :=
  [weekday date_obj; date_month date_obj; date_day date_obj;
   (date_obj - today)%Z].

Definition _ml_demand_forecast (room_type : string) (target_date : date)
           (historical_data : list DataPoint.t) : M t Q :=
  if (length historical_data <? 30)%nat then ret 0.75
  else
    (* historical_data[:-7] *)
    let training := take (length historical_data - 7) historical_data in
    let features :=
      List.map (fun data_point => feature_vector (DataPoint.date data_point))
               training in
    let targets := List.map DataPoint.occupancy training in
    if (length features <? 10)%nat then ret 0.75
    else
      match RandomForestRegressor features targets (feature_vector target_date) with
      | Some prediction => ret (np_clip prediction 0.0 1.0)
      | None => _exponential_smoothing_forecast historical_data
      end.

Definition is_weekend (target_date : date) : bool := (5 <=? weekday target_date)%Z.

Definition _fallback_forecast (room_type : string) (target_date : date)
  : M t Forecast.t :=
  let baseline_demand := 0.75 in
  let baseline_demand :=
    if is_weekend target_date then baseline_demand * 1.1 else baseline_demand in
  ret {| Forecast.room_type := room_type;
         Forecast.target_date := target_date;
         Forecast.forecasted_demand := baseline_demand;
         Forecast.components :=
           {| ForecastComponents.base_demand := baseline_demand;
              ForecastComponents.seasonality_factor := 1.0;
              ForecastComponents.trend_factor := 1.0;
              ForecastComponents.day_of_week_factor :=
                if is_weekend target_date then 1.1 else 1.0;
              ForecastComponents.lead_time_factor := 1.0;
              ForecastComponents.competitor_factor := 1.0;
              ForecastComponents.event_factor := 1.0 |};
         Forecast.confidence := 0.5;
         Forecast.model_used := "fallback" |}.

Definition _calculate_confidence (historical_data : list DataPoint.t) (forecast : Q)
  : M t Q :=
  if (length historical_data <? 7)%nat then ret 0.3
  else
    let occupancy_values := List.map DataPoint.occupancy historical_data in
    let variance := np_var occupancy_values in
    let confidence := 1.0 - Qmin (variance * 2) 0.7 in
    ret (Qmax confidence 0.3).

Definition calculate_demand_forecast (room_type : string) (target_date : date)
           (use_ml : bool) : M t Forecast.t :=
  historical_data <- _get_historical_bookings room_type;
  if (length historical_data <? 14)%nat
  then _fallback_forecast room_type target_date
  else
    seasonality_factor <- _calculate_seasonality target_date historical_data;
    trend_factor <- _calculate_trend historical_data;
    day_of_week_factor <- _calculate_dow_factor target_date historical_data;
    lead_time_factor <- _calculate_lead_time_impact room_type target_date;
    competitor_factor <- _get_competitor_impact room_type target_date;
    event_factor <- _get_event_impact target_date;
    base_demand <-
      (if use_ml && (30 <=? length historical_data)%nat
       then _ml_demand_forecast room_type target_date historical_data
       else _exponential_smoothing_forecast historical_data);
    let final_demand :=
      base_demand * seasonality_factor * trend_factor * day_of_week_factor
      * competitor_factor * event_factor * lead_time_factor in
    let final_demand := np_clip final_demand 0.0 1.0 in
    confidence <- _calculate_confidence historical_data final_demand;
    ret {| Forecast.room_type := room_type;
           Forecast.target_date := target_date;
           Forecast.forecasted_demand := final_demand;
           Forecast.components :=
             {| ForecastComponents.base_demand := base_demand;
                ForecastComponents.seasonality_factor := seasonality_factor;
                ForecastComponents.trend_factor := trend_factor;
                ForecastComponents.day_of_week_factor := day_of_week_factor;
                ForecastComponents.lead_time_factor := lead_time_factor;
                ForecastComponents.competitor_factor := competitor_factor;
                ForecastComponents.event_factor := event_factor |};
           Forecast.confidence := confidence;
           Forecast.model_used :=
             if use_ml && (30 <=? length historical_data)%nat
             then "ml" else "exponential_smoothing" |}.

Definition update_forecast_accuracy (room_type : string) (actual_date : date)
  : M t (option Accuracy.t) :=
  actual_bookings <- gets (fun self =>
    count_bookings (session self) room_type actual_date);
  total_inventory <- gets (fun self => count_inventory (session self) room_type);
  actual_occupancy <- py_div (inject_Z actual_bookings)
                             (inject_Z (Z.max total_inventory 1));
  forecast_record <- gets (fun self =>
    latest_forecast (query_forecasts (session self) room_type actual_date));
  match forecast_record with
  | Some record =>
      let predicted_demand := ForecastData.forecasted_demand record in
      let error := Qabs (predicted_demand - actual_occupancy) in
      ratio <- py_div error (Qmax actual_occupancy 0.01);
      let error_pct := ratio * 100 in
      ret (Some {| Accuracy.room_type := room_type;
                   Accuracy.date := actual_date;
                   Accuracy.predicted_demand := predicted_demand;
                   Accuracy.actual_occupancy := actual_occupancy;
                   Accuracy.absolute_error := error;
                   Accuracy.percentage_error := error_pct;
                   Accuracy.accuracy_score := Qmax 0 (100 - error_pct) |})
  | None => ret None
  end.

Definition _calculate_revenue_impact (room_type : string)
           (scenario_demand base_demand : Q) : M t RevenueImpact.t :=
  room_type_obj <- gets (fun self => query_room_type (session self) room_type);
  let base_rate :=
    match room_type_obj with
    | Some obj => RoomType.base_rate obj
    | None => 300
    end in
  total_rooms <- gets (fun self => count_inventory (session self) room_type);
  let base_revenue := base_demand * inject_Z total_rooms * base_rate in
  let scenario_revenue := scenario_demand * inject_Z total_rooms * base_rate in
  ret {| RevenueImpact.base_revenue := base_revenue;
         RevenueImpact.scenario_revenue := scenario_revenue;
         RevenueImpact.revenue_difference := scenario_revenue - base_revenue;
         RevenueImpact.percentage_impact :=
           ((scenario_revenue - base_revenue) / Qmax base_revenue 1) * 100 |}.

(** The body of [for scenario in scenarios]: [locals] holds [demand],
    [probability] and [description] once an iteration has bound them;
    a name that is none of the three keeps the previous bindings. *)
Fixpoint scenario_loop (room_type : string) (base_demand : Q)
         (scenarios : list string) (locals : option (Q * Q * string))
         (scenario_results : gmap string Scenario.t)
  : M t (gmap string Scenario.t) :=
  match scenarios with
  | [] => ret scenario_results
  | scenario :: rest =>
      let locals :=
        if String.eqb scenario "low"
        then Some (base_demand * 0.8, 0.2, "Market downturn, increased competition"%string)
        else if String.eqb scenario "base"
        then Some (base_demand, 0.6, "Expected market conditions"%string)
        else if String.eqb scenario "high"
        then Some (base_demand * 1.3, 0.2, "Strong market, limited competition"%string)
        else locals in
      match locals with
      | None => raise UnboundLocalError
      | Some (demand, probability, description) =>
          revenue_impact <- _calculate_revenue_impact room_type demand base_demand;
          scenario_loop room_type base_demand rest locals
            (<[scenario := {| Scenario.demand := Qmin demand 1.0;
                              Scenario.probability := probability;
                              Scenario.description := description;
                              Scenario.revenue_impact := revenue_impact |}]>
               scenario_results)
      end
  end.

Definition default_scenarios : list string := ["low"; "base"; "high"]%string.

Definition generate_demand_scenarios (room_type : string) (target_date : date)
           (scenarios : list string) : M t Scenarios.t :=
  base_forecast <- calculate_demand_forecast room_type target_date true;
  let base_demand := Forecast.forecasted_demand base_forecast in
  scenario_results <- scenario_loop room_type base_demand scenarios None ∅;
  ret {| Scenarios.room_type := room_type;
         Scenarios.target_date := target_date;
         Scenarios.base_forecast := base_demand;
         Scenarios.scenarios := scenario_results |}.

(** [daily_bookings] is the series of bookings per booking date, in date
    order; [tail(7)] and [head(7)] are its last and first seven entries. *)
Definition _calculate_velocity_trend (daily_bookings : list Z) : M t string :=
  if (length daily_bookings <? 7)%nat then ret "insufficient_data"%string
  else
    let recent_avg :=
      np_mean (List.map inject_Z (drop (length daily_bookings - 7) daily_bookings)) in
    let earlier_avg := np_mean (List.map inject_Z (take 7 daily_bookings)) in
    if Qltb (earlier_avg * 1.1) recent_avg then ret "accelerating"%string
    else if Qltb recent_avg (earlier_avg * 0.9) then ret "decelerating"%string
    else ret "stable"%string.

End Methods.

End ForecastingEngine.

(** ** Reference values used in the statements *)

Module FE := ForecastingEngine.
Module PE := PricingEngine.

(** The entry of the occupancy series for day [d]: the bookings arriving
    that day over the guarded inventory count. *)
Definition occupancy_point (db : Session) (room_type : string) (d : date)
  : FE.DataPoint.t :=
  let n := count_bookings db room_type d in
  {| FE.DataPoint.date := d;
     FE.DataPoint.occupancy :=
       inject_Z n / inject_Z (Z.max (count_inventory db room_type) 1);
     FE.DataPoint.bookings := n |}.

(** The base rate [get_base_rate] reads for a category: the stored one, or
    300 when the category has no row. *)
Definition stored_base_rate (db : Session) (room_type : string) : Q :=
  match query_room_type db room_type with
  | Some obj => RoomType.base_rate obj
  | None => 300
  end.

(** The competitor factor as the specification words it: the ratio of the
    median available competitor rate on the target date to the category's
    base rate, mapped to 1.05 above 1.10, to 0.95 below 0.90 and to 1.0
    otherwise; 1.0 when the date has no competitor rows. *)
Definition spec_competitor_factor (db : Session) (room_type : string)
           (target_date : date) : Q :=
  match query_competitor_rates db room_type target_date, query_room_type db room_type with
  | (_ :: _) as rows, Some obj =>
      let available := List.filter CompetitorRate.availability rows in
      let ratio := np_median (List.map CompetitorRate.rate available)
                   / RoomType.base_rate obj in
      if Qltb 1.10 ratio then 1.05
      else if Qltb ratio 0.90 then 0.95
      else 1.0
  | _, _ => 1.0
  end.

(** ** Sample data for the worked examples *)

(** 2024-04-14 (a Sunday), at midnight. *)
Definition sample_now : datetime := mk_datetime 738990 0.

Definition sample_forest (X : list (list Z)) (y : list Q) (x : list Z) : option Q :=
  Some 0.6.

Definition empty_db : Session :=
  {| room_types := [];
     inventory := [];
     bookings := [];
     competitor_rates := [];
     price_history := [];
     event_multipliers := [];
     forecast_data := [] |}.

(** An engine whose [lookback_days] attribute was set to 5. *)
Definition short_lookback_engine : FE.t :=
  {| FE.session := empty_db;
     FE.smoothing_alpha := 0.3;
     FE.lookback_days := 5;
     FE.forecast_horizon := 30 |}.

Definition suite_booking (arrival : date) : Booking.t :=
  {| Booking.room_type := "Suite";
     Booking.checkin := arrival;
     Booking.checkout := (arrival + 2)%Z;
     Booking.rate := 520;
     Booking.channel := "direct";
     Booking.created_at := mk_datetime (arrival - 10) 0;
     Booking.booking_status := "confirmed" |}.

(** A store with a [Suite] room type, bookings for it, and no inventory
    row for it. *)
Definition suite_db : Session :=
  {| room_types := [RoomType.mk "Suite" 4 500];
     inventory := [Inventory.mk 1 "Deluxe" "available"];
     bookings := [suite_booking 738985; suite_booking 738985; suite_booking 738990];
     competitor_rates := [];
     price_history := [];
     event_multipliers := [];
     forecast_data :=
       [ForecastData.mk 738985 "Suite" 0.8 (mk_datetime 738980 0)] |}.

(** A [Deluxe] category at base rate 100 with three available competitor
    offers for 2024-04-24: 100, 100 and 400. *)
Definition competitor_db : Session :=
  {| room_types := [RoomType.mk "Deluxe" 2 100];
     inventory := [Inventory.mk 1 "Deluxe" "available"];
     bookings := [];
     competitor_rates :=
       [CompetitorRate.mk 739000 "hotel_a" "Deluxe" 100 true;
        CompetitorRate.mk 739000 "hotel_b" "Deluxe" 100 true;
        CompetitorRate.mk 739000 "hotel_c" "Deluxe" 400 true];
     price_history := [];
     event_multipliers := [];
     forecast_data := [] |}.

(** A [Deluxe] category at base rate 100.02 with one available competitor
    offer of 50 for 2024-04-24; no forecast, booking or event rows. *)
Definition rounding_db : Session :=
  {| room_types := [RoomType.mk "Deluxe" 2 100.02];
     inventory := [Inventory.mk 1 "Deluxe" "available"];
     bookings := [];
     competitor_rates := [CompetitorRate.mk 739000 "hotel_a" "Deluxe" 50 true];
     price_history := [];
     event_multipliers := [];
     forecast_data := [] |}.

(** A [Deluxe] category at base rate 280 whose stored forecast for
    2024-04-24 is [demand], with one available competitor offer of 140. *)
Definition forecast_db (demand : Q) : Session :=
  {| room_types := [RoomType.mk "Deluxe" 2 280];
     inventory := [Inventory.mk 1 "Deluxe" "available"];
     bookings := [];
     competitor_rates := [CompetitorRate.mk 739000 "hotel_a" "Deluxe" 140 true];
     price_history := [];
     event_multipliers := [];
     forecast_data :=
       [ForecastData.mk 739000 "Deluxe" demand (mk_datetime 738980 0)] |}.

(** [override_params = {'beta': 2}] *)
Definition beta_two : option (gmap string Q) := Some {[ "beta"%string := 2 ]}.


(** A [Deluxe] category stored with the base rate -100; no other rows. *)
Definition negative_rate_db : Session :=
  {| room_types := [RoomType.mk "Deluxe" 2 (-100)];
     inventory := [Inventory.mk 1 "Deluxe" "available"];
     bookings := [];
     competitor_rates := [];
     price_history := [];
     event_multipliers := [];
     forecast_data := [] |}.


(** A random forest whose fit or prediction always raises. *)
Definition failing_forest (X : list (list Z)) (y : list Q) (x : list Z) : option Q :=
  None.


(** A short occupancy series: 20%, then 80%, then 50%. *)
Definition sample_series : list FE.DataPoint.t :=
  [FE.DataPoint.mk 738988 0.2 1; FE.DataPoint.mk 738989 0.8 4;
   FE.DataPoint.mk 738990 0.5 2].


(** The scenario names the loop of [generate_demand_scenarios] has a branch
    for, and what it guarantees of every entry it writes. *)
Definition known_scenario (name : string) : Prop :=
  name = "low"%string \/ name = "base"%string \/ name = "high"%string.

Definition capped_scenario (s : FE.Scenario.t) : Prop :=
  0 <= FE.Scenario.demand s <= 1
  /\ (FE.Scenario.probability s == 0.2 \/ FE.Scenario.probability s == 0.6).


(** What a pricing call reads of an engine: the six tables it queries, the
    baseline demand and the maximum lead time. The price history and the
    stored coefficients are not among them. *)
Definition pricing_inputs_agree (self self' : PE.t) : Prop :=
  room_types (PE.session self) = room_types (PE.session self')
  /\ inventory (PE.session self) = inventory (PE.session self')
  /\ bookings (PE.session self) = bookings (PE.session self')
  /\ competitor_rates (PE.session self) = competitor_rates (PE.session self')
  /\ event_multipliers (PE.session self) = event_multipliers (PE.session self')
  /\ forecast_data (PE.session self) = forecast_data (PE.session self')
  /\ PE.baseline_demand self = PE.baseline_demand self'
  /\ PE.max_lead_time self = PE.max_lead_time self'.


(** An engine over the sample store whose [max_lead_time] attribute was set
    to 0. *)
Definition zero_scale_engine : PE.t :=
  {| PE.session := suite_db;
     PE.alpha := 0.3;
     PE.beta := 0.25;
     PE.gamma := 0.02;
     PE.delta := 1.0;
     PE.baseline_demand := 0.75;
     PE.max_lead_time := 0 |}.

(** * Properties *)

(** ** The method monad *)

Section MonadFacts.

Context {S : Type}.

Lemma bind_returns {A B} (m : M S A) (k : A -> M S B) s a s' :
  m s = (Returned a, s') -> bind m k s = k a s'.
Proof. intros H. unfold bind. now rewrite H. Qed.

Lemma bind_raises {A B} (m : M S A) (k : A -> M S B) s e s' :
  m s = (Raised e, s') -> bind m k s = (Raised e, s').
Proof. intros H. unfold bind. now rewrite H. Qed.

Lemma for_each_returns {A B} (body : A -> M S B) (g : A -> B) s l :
  (forall x, In x l -> body x s = (Returned (g x), s)) ->
  for_each l body s = (Returned (List.map g l), s).
Proof.
  induction l as [|x l IH]; intros Hbody; simpl.
  - reflexivity.
  - rewrite (bind_returns _ _ s (g x) s) by (apply Hbody; now left).
    rewrite (bind_returns _ _ s (List.map g l) s)
      by (apply IH; intros y Hy; apply Hbody; now right).
    reflexivity.
Qed.

Lemma py_div_returns (a b : Q) (s : S) :
  ~ b == 0 -> py_div a b s = (Returned (a / b), s).
Proof.
  intros Hb. unfold py_div.
  destruct (Qeq_bool b 0) eqn:E; [| reflexivity].
  apply Qeq_bool_iff in E. contradiction.
Qed.

Lemma read_only_ret {A} (a : A) : read_only (ret a : M S A).
Proof. now intros s. Qed.

Lemma read_only_raise {A} e : read_only (raise e : M S A).
Proof. now intros s. Qed.

Lemma read_only_gets {A} (f : S -> A) : read_only (gets f).
Proof. now intros s. Qed.

Lemma read_only_bind {A B} (m : M S A) (k : A -> M S B) :
  read_only m -> (forall a, read_only (k a)) -> read_only (bind m k).
Proof.
  intros Hm Hk s. unfold bind.
  specialize (Hm s). destruct (m s) as [[a|e] s']; simpl in Hm; subst s'.
  - apply Hk.
  - reflexivity.
Qed.

Lemma read_only_for_each {A B} (body : A -> M S B) l :
  (forall x, read_only (body x)) -> read_only (for_each l body).
Proof.
  intros Hbody. induction l as [|x l IH]; simpl.
  - apply read_only_ret.
  - apply read_only_bind; [apply Hbody | intros y].
    apply read_only_bind; [apply IH | intros ys]. apply read_only_ret.
Qed.

Lemma read_only_py_div (a b : Q) : read_only (py_div a b : M S Q).
Proof.
  unfold py_div. destruct (Qeq_bool b 0);
    [apply read_only_raise | apply read_only_ret].
Qed.

End MonadFacts.

(** ** Rational arithmetic *)

Lemma Qltb_lt (x y : Q) : Qltb x y = true <-> x < y.
Proof.
  unfold Qltb. rewrite negb_true_iff.
  split; intros H.
  - apply Qnot_le_lt. intros Hle. apply Qle_bool_iff in Hle. congruence.
  - destruct (Qle_bool y x) eqn:E; [| reflexivity].
    apply Qle_bool_iff in E. apply Qlt_not_le in H. contradiction.
Qed.

Lemma Qltb_ge (x y : Q) : Qltb x y = false <-> y <= x.
Proof.
  unfold Qltb. rewrite negb_false_iff. apply Qle_bool_iff.
Qed.

Lemma np_clip_bounds (x lo hi : Q) :
  lo <= hi -> lo <= np_clip x lo hi <= hi.
Proof.
  intros H. unfold np_clip.
  destruct (Q.max_spec x lo) as [[Hx Hm]|[Hx Hm]];
    destruct (Q.min_spec (Qmax x lo) hi) as [[Hlt Hn]|[Hlt Hn]];
    rewrite Hn; rewrite Hm in *; split; lra.
Qed.

(** ** The occupancy series *)

Lemma count_by_arrival_fold (bs : list Booking.t) (acc : gmap Z Z) (d : date) :
  default 0%Z
    (foldl (fun daily_occupancy booking =>
              let arrival_date := Booking.checkin booking in
              <[arrival_date := (default 0 (daily_occupancy !! arrival_date) + 1)%Z]>
                daily_occupancy) acc bs !! d)
  = (default 0 (acc !! d)
     + Z.of_nat (length (List.filter (fun b => (Booking.checkin b =? d)%Z) bs)))%Z.
Proof.
  revert acc. induction bs as [|b bs IH]; intros acc; simpl.
  - lia.
  - rewrite IH. destruct (Z.eqb_spec (Booking.checkin b) d) as [->|Hne].
    + rewrite lookup_insert_eq. simpl. lia.
    + rewrite lookup_insert_ne by assumption. lia.
Qed.

Lemma count_by_arrival_lookup (bs : list Booking.t) (d : date) :
  default 0%Z (FE.count_by_arrival bs !! d)
  = Z.of_nat (length (List.filter (fun b => (Booking.checkin b =? d)%Z) bs)).
Proof.
  unfold FE.count_by_arrival. rewrite count_by_arrival_fold.
  rewrite lookup_empty. simpl. lia.
Qed.

Lemma bookings_between_count db room_type start_date end_date d :
  (start_date <= d <= end_date)%Z ->
  Z.of_nat (length (List.filter (fun b => (Booking.checkin b =? d)%Z)
                      (FE.bookings_between db room_type start_date end_date)))
  = count_bookings db room_type d.
Proof.
  intros Hd. unfold FE.bookings_between, count_bookings. f_equal. f_equal.
  induction (bookings db) as [|b bs IH]; simpl; [reflexivity|].
  destruct (String.eqb (Booking.room_type b) room_type); simpl; [| exact IH].
  destruct (Booking.checkin b =? d)%Z eqn:E.
  - apply Z.eqb_eq in E.
    replace (start_date <=? Booking.checkin b)%Z with true
      by (symmetry; apply Z.leb_le; lia).
    replace (Booking.checkin b <=? end_date)%Z with true
      by (symmetry; apply Z.leb_le; lia).
    simpl. rewrite (proj2 (Z.eqb_eq _ _) E). now f_equal.
  - destruct ((start_date <=? Booking.checkin b)%Z
              && (Booking.checkin b <=? end_date)%Z); simpl; rewrite ?E; exact IH.
Qed.

Lemma guarded_inventory_nonzero (n : Z) : ~ inject_Z (Z.max n 1) == 0.
Proof.
  unfold Qeq, inject_Z. simpl. lia.
Qed.

Lemma In_date_range (start_date end_date d : date) :
  In d (date_range start_date end_date) <-> (start_date <= d <= end_date)%Z.
Proof.
  unfold date_range. rewrite <- list_elem_of_In, elem_of_seqZ. lia.
Qed.

(** The series is the list of [occupancy_point]s of the days from
    [today - lookback_days] to [today]; building it never raises. *)
Lemma get_historical_bookings_returns now room_type (self : FE.t) :
  FE._get_historical_bookings now room_type self
  = (Returned (List.map (occupancy_point (FE.session self) room_type)
                 (date_range (FE.today now - FE.lookback_days self)%Z (FE.today now))),
     self).
Proof.
  unfold FE._get_historical_bookings.
  rewrite (bind_returns _ _ self (FE.lookback_days self) self) by reflexivity.
  rewrite (bind_returns _ _ self _ self) by reflexivity.
  rewrite (bind_returns _ _ self _ self) by reflexivity.
  apply for_each_returns. intros d Hd. apply In_date_range in Hd.
  rewrite (bind_returns _ _ self _ self)
    by (apply py_div_returns, guarded_inventory_nonzero).
  unfold ret, occupancy_point.
  rewrite count_by_arrival_lookup, bookings_between_count by assumption.
  reflexivity.
Qed.

Lemma occupancy_point_date db room_type (l : list date) :
  List.map FE.DataPoint.date (List.map (occupancy_point db room_type) l) = l.
Proof.
  induction l as [|d l IH]; simpl; [reflexivity | now rewrite IH].
Qed.

(** ** The forecast *)

Section ForecastFacts.

Variable now : datetime.
Variable forest : list (list Z) -> list Q -> list Z -> option Q.

Ltac returned := eexists; reflexivity.

Lemma calculate_seasonality_returns target_date historical_data (self : FE.t) :
  exists v, FE._calculate_seasonality target_date historical_data self
            = (Returned v, self).
Proof.
  unfold FE._calculate_seasonality.
  destruct historical_data; [returned |].
  destruct (_ !! _); returned.
Qed.

Lemma calculate_trend_returns historical_data (self : FE.t) :
  exists v, FE._calculate_trend historical_data self = (Returned v, self).
Proof.
  unfold FE._calculate_trend. destruct (_ <? _)%nat; returned.
Qed.

Lemma calculate_dow_factor_returns target_date historical_data (self : FE.t) :
  exists v, FE._calculate_dow_factor target_date historical_data self
            = (Returned v, self).
Proof.
  unfold FE._calculate_dow_factor.
  destruct historical_data; [returned |].
  destruct (_ !! _); returned.
Qed.

Lemma calculate_lead_time_impact_returns room_type target_date (self : FE.t) :
  exists v, FE._calculate_lead_time_impact now room_type target_date self
            = (Returned v, self).
Proof.
  unfold FE._calculate_lead_time_impact.
  destruct (_ <=? _)%Z; [returned |].
  unfold bind, gets.
  destruct (List.map _ _); [returned |].
  destruct (Qltb _ _); [returned |].
  destruct (Qltb _ _); returned.
Qed.

Lemma get_competitor_impact_returns room_type target_date (self : FE.t) :
  exists v, FE._get_competitor_impact room_type target_date self
            = (Returned v, self).
Proof.
  unfold FE._get_competitor_impact, bind, gets.
  destruct (query_competitor_rates _ _ _); [returned |].
  destruct (query_room_type _ _); [| returned].
  destruct (Qeq_bool _ _);
    (destruct (Qltb _ _); [returned |]; destruct (Qltb _ _); returned).
Qed.

Lemma get_event_impact_returns target_date (self : FE.t) :
  exists v, FE._get_event_impact target_date self = (Returned v, self).
Proof.
  unfold FE._get_event_impact, bind, gets.
  destruct (query_event _ _); returned.
Qed.

Lemma exponential_smoothing_returns historical_data (self : FE.t) :
  exists v, FE._exponential_smoothing_forecast historical_data self
            = (Returned v, self).
Proof.
  unfold FE._exponential_smoothing_forecast.
  destruct (List.map _ _); returned.
Qed.

Lemma ml_demand_forecast_returns room_type target_date historical_data (self : FE.t) :
  exists v, FE._ml_demand_forecast now forest room_type target_date historical_data self
            = (Returned v, self).
Proof.
  unfold FE._ml_demand_forecast.
  destruct (_ <? _)%nat; [returned |].
  destruct (_ <? _)%nat; [returned |].
  destruct (forest _ _ _); [returned |].
  apply exponential_smoothing_returns.
Qed.

Lemma calculate_confidence_returns historical_data forecast (self : FE.t) :
  exists v, FE._calculate_confidence historical_data forecast self
            = (Returned v, self).
Proof.
  unfold FE._calculate_confidence. destruct (_ <? _)%nat; returned.
Qed.

(** With fewer than 14 points the forecast is the fallback forecast. *)
Lemma forecast_short_series room_type target_date use_ml (self : FE.t) historical_data :
  FE._get_historical_bookings now room_type self = (Returned historical_data, self) ->
  (length historical_data < 14)%nat ->
  FE.calculate_demand_forecast now forest room_type target_date use_ml self
  = FE._fallback_forecast room_type target_date self.
Proof.
  intros Hseries Hlen. unfold FE.calculate_demand_forecast.
  rewrite (bind_returns _ _ _ _ _ Hseries).
  now rewrite (proj2 (Nat.ltb_lt _ _) Hlen).
Qed.

(** The forecast always returns, and its demand is within [0, 1]. *)
Lemma forecast_returns_bounded room_type target_date use_ml (self : FE.t) :
  exists forecast,
    FE.calculate_demand_forecast now forest room_type target_date use_ml self
    = (Returned forecast, self)
    /\ 0 <= FE.Forecast.forecasted_demand forecast <= 1.
Proof.
  unfold FE.calculate_demand_forecast.
  rewrite (bind_returns _ _ _ _ _ (get_historical_bookings_returns now room_type self)).
  set (historical_data := List.map _ _).
  destruct (length historical_data <? 14)%nat.
  - eexists. split; [reflexivity |]. simpl.
    destruct (FE.is_weekend target_date); lra.
  - destruct (calculate_seasonality_returns target_date historical_data self) as [v1 H1].
    destruct (calculate_trend_returns historical_data self) as [v2 H2].
    destruct (calculate_dow_factor_returns target_date historical_data self) as [v3 H3].
    destruct (calculate_lead_time_impact_returns room_type target_date self) as [v4 H4].
    destruct (get_competitor_impact_returns room_type target_date self) as [v5 H5].
    destruct (get_event_impact_returns target_date self) as [v6 H6].
    rewrite (bind_returns _ _ _ _ _ H1), (bind_returns _ _ _ _ _ H2),
      (bind_returns _ _ _ _ _ H3), (bind_returns _ _ _ _ _ H4),
      (bind_returns _ _ _ _ _ H5), (bind_returns _ _ _ _ _ H6).
    assert (Hbase : exists v,
               (if use_ml && (30 <=? length historical_data)%nat
                then FE._ml_demand_forecast now forest room_type target_date historical_data
                else FE._exponential_smoothing_forecast historical_data) self
               = (Returned v, self)).
    { destruct (use_ml && _);
        [apply ml_demand_forecast_returns | apply exponential_smoothing_returns]. }
    destruct Hbase as [v7 H7]. rewrite (bind_returns _ _ _ _ _ H7).
    match goal with
    | |- context [FE._calculate_confidence historical_data ?f] =>
        destruct (calculate_confidence_returns historical_data f self) as [v8 H8]
    end.
    rewrite (bind_returns _ _ _ _ _ H8).
    eexists. split; [reflexivity |]. simpl.
    match goal with
    | |- context [np_clip ?x ?lo ?hi] =>
        pose proof (np_clip_bounds x lo hi ltac:(lra))
    end.
    lra.
Qed.

End ForecastFacts.

(** ** Forecast claims *)

(** C2. For every room category, target date and [use_ml] flag the forecast
    returns a record whose [forecasted_demand] lies in the closed interval
    [0, 1]; the same holds of the record built by the fallback path. *)
Theorem forecasted_demand_within_unit_interval
        now forest (self : FE.t) room_type target_date use_ml :
  (exists forecast,
      FE.calculate_demand_forecast now forest room_type target_date use_ml self
      = (Returned forecast, self)
      /\ 0 <= FE.Forecast.forecasted_demand forecast <= 1)
  /\ (exists fallback,
         FE._fallback_forecast room_type target_date self = (Returned fallback, self)
         /\ 0 <= FE.Forecast.forecasted_demand fallback <= 1).
Proof.
  split.
  - apply forecast_returns_bounded.
  - eexists. split; [reflexivity |]. simpl.
    destruct (FE.is_weekend target_date); lra.
Qed.

(** The fallback path as the guard [len(historical_data) < 14] has it: a
    series of fewer than 14 points gives, without raising, the fallback
    forecast: demand 0.75, times 1.1 when the target date is a weekend day,
    [model_used = "fallback"] and confidence 0.5. The series has
    [lookback_days + 1] points, so the premise needs an engine whose
    [lookback_days] attribute was set below 13. *)
Theorem short_history_gives_fallback
        now forest (self : FE.t) room_type target_date use_ml historical_data :
  FE._get_historical_bookings now room_type self = (Returned historical_data, self) ->
  (length historical_data < 14)%nat ->
  exists forecast,
    FE.calculate_demand_forecast now forest room_type target_date use_ml self
    = (Returned forecast, self)
    /\ FE.Forecast.forecasted_demand forecast
       == (if (5 <=? weekday target_date)%Z then 0.75 * 1.1 else 0.75)
    /\ FE.Forecast.model_used forecast = "fallback"%string
    /\ FE.Forecast.confidence forecast == 0.5.
Proof.
  intros Hseries Hlen.
  rewrite (forecast_short_series now forest room_type target_date use_ml self
             historical_data Hseries Hlen).
  eexists. split; [reflexivity |]. simpl. unfold FE.is_weekend.
  destruct (5 <=? weekday target_date)%Z; repeat split; reflexivity.
Qed.

(** An engine with a five-day lookback, asked about Sunday 2024-04-21. *)
Lemma short_history_gives_fallback_witness :
  exists forecast,
    FE.calculate_demand_forecast sample_now sample_forest "Deluxe" 738997 true
      short_lookback_engine
    = (Returned forecast, short_lookback_engine)
    /\ FE.Forecast.forecasted_demand forecast
       == (if (5 <=? weekday 738997)%Z then 0.75 * 1.1 else 0.75)
    /\ FE.Forecast.model_used forecast = "fallback"%string
    /\ FE.Forecast.confidence forecast == 0.5.
Proof.
  eapply (short_history_gives_fallback sample_now sample_forest
            short_lookback_engine "Deluxe" 738997%Z true).
  - vm_compute. reflexivity.
  - vm_compute. lia.
Defined.

(** The series has one point per day of the window, with or without
    bookings: its length is [lookback_days + 1] whatever the store holds. *)
Lemma occupancy_series_length now room_type (self : FE.t) :
  exists historical_data,
    FE._get_historical_bookings now room_type self = (Returned historical_data, self)
    /\ length historical_data = Z.to_nat (FE.lookback_days self + 1).
Proof.
  eexists. split; [apply get_historical_bookings_returns |].
  rewrite length_map. unfold date_range. rewrite length_seqZ. f_equal. lia.
Qed.

(** C3. A category with fewer than 14 days of occupancy history does not get
    the fallback forecast from the engine as constructed. On the sample
    store the Suite category has bookings on two days of the window only;
    the series counts the 89 days without bookings as points of occupancy 0,
    so it has 91 points, the guard [len(historical_data) < 14] does not
    fire, and the forecast for Wednesday 2024-04-24 has [model_used = "ml"]
    (or "exponential_smoothing" without [use_ml]), a confidence other than
    0.5 and a demand other than 0.75. *)
Theorem sparse_history_does_not_give_fallback :
  exists historical_data forecast forecast',
    FE._get_historical_bookings sample_now "Suite" (FE.__init__ suite_db)
    = (Returned historical_data, FE.__init__ suite_db)
    /\ length (List.filter (fun dp => negb (FE.DataPoint.bookings dp =? 0)%Z)
                           historical_data) = 2%nat
    /\ length historical_data = 91%nat
    /\ FE.calculate_demand_forecast sample_now sample_forest "Suite" 739000 true
         (FE.__init__ suite_db)
       = (Returned forecast, FE.__init__ suite_db)
    /\ FE.Forecast.model_used forecast = "ml"%string
    /\ ~ FE.Forecast.confidence forecast == 0.5
    /\ ~ FE.Forecast.forecasted_demand forecast == 0.75
    /\ FE.calculate_demand_forecast sample_now sample_forest "Suite" 739000 false
         (FE.__init__ suite_db)
       = (Returned forecast', FE.__init__ suite_db)
    /\ FE.Forecast.model_used forecast' = "exponential_smoothing"%string
    /\ ~ FE.Forecast.confidence forecast' == 0.5
    /\ ~ FE.Forecast.forecasted_demand forecast' == 0.75
    /\ fst (FE._fallback_forecast "Suite" 739000 (FE.__init__ suite_db))
       <> Returned forecast
    /\ fst (FE._fallback_forecast "Suite" 739000 (FE.__init__ suite_db))
       <> Returned forecast'.
Proof.
  do 3 eexists.
  split; [vm_compute; reflexivity |].
  split; [vm_compute; reflexivity |].
  split; [vm_compute; reflexivity |].
  split; [vm_compute; reflexivity |].
  split; [reflexivity |].
  split; [vm_compute; discriminate |].
  split; [vm_compute; discriminate |].
  split; [vm_compute; reflexivity |].
  split; [reflexivity |].
  split; [vm_compute; discriminate |].
  split; [vm_compute; discriminate |].
  split; vm_compute; discriminate.
Qed.

(** C10. For the engine as constructed (lookback of 90 days), whatever the
    store holds, the occupancy series has one entry for each of the 91 days
    from [today - 90] to [today], in order; a day on which no booking of the
    category arrives has occupancy 0; so the series never has fewer than 14
    entries. *)
Theorem occupancy_series_covers_lookback_window now (db : Session) room_type :
  exists historical_data,
    FE._get_historical_bookings now room_type (FE.__init__ db)
    = (Returned historical_data, FE.__init__ db)
    /\ length historical_data = 91%nat
    /\ List.map FE.DataPoint.date historical_data = seqZ (FE.today now - 90) 91
    /\ (forall dp, In dp historical_data ->
          count_bookings db room_type (FE.DataPoint.date dp) = 0%Z ->
          FE.DataPoint.occupancy dp == 0)
    /\ (14 <= length historical_data)%nat.
Proof.
  eexists. split; [apply get_historical_bookings_returns |].
  cbn [FE.lookback_days FE.session FE.__init__].
  assert (Hrange : date_range (FE.today now - 90) (FE.today now)
                   = seqZ (FE.today now - 90) 91).
  { unfold date_range. f_equal. lia. }
  rewrite Hrange, length_map, length_seqZ.
  split; [reflexivity |]. split; [apply occupancy_point_date |].
  split; [| simpl; lia].
  intros dp Hdp Hnone. apply in_map_iff in Hdp. destruct Hdp as [d [<- _]].
  simpl in *. rewrite Hnone. reflexivity.
Qed.

Lemma Qdiv_one (x : Q) : x / inject_Z 1 == x.
Proof. unfold Qdiv. change (/ inject_Z 1) with 1. apply Qmult_1_r. Qed.

Lemma guarded_occupancy_nonzero (x : Q) : ~ Qmax x 0.01 == 0.
Proof.
  pose proof (Q.le_max_r x 0.01). intros H0. rewrite H0 in H. lra.
Qed.

(** Accuracy tracking never raises; the realised occupancy is the booking
    count over the guarded inventory count. *)
Lemma update_forecast_accuracy_returns room_type actual_date (self : FE.t) :
  exists result,
    FE.update_forecast_accuracy room_type actual_date self = (Returned result, self)
    /\ forall acc, result = Some acc ->
         FE.Accuracy.actual_occupancy acc
         = inject_Z (count_bookings (FE.session self) room_type actual_date)
           / inject_Z (Z.max (count_inventory (FE.session self) room_type) 1).
Proof.
  unfold FE.update_forecast_accuracy.
  rewrite (bind_returns _ _ self _ self) by reflexivity.
  rewrite (bind_returns _ _ self _ self) by reflexivity.
  rewrite (bind_returns _ _ self _ self)
    by (apply py_div_returns, guarded_inventory_nonzero).
  rewrite (bind_returns _ _ self _ self) by reflexivity.
  destruct (FE.latest_forecast _) as [record|].
  - rewrite (bind_returns _ _ self _ self)
      by (apply py_div_returns, guarded_occupancy_nonzero).
    eexists. split; [reflexivity |].
    intros acc Hacc. injection Hacc as <-. reflexivity.
  - eexists. split; [reflexivity |]. intros acc Hacc. discriminate.
Qed.

(** C4, as stated, fails: for a category without any inventory row the
    occupancy series, the forecast and the accuracy report are all
    returned; here the realised occupancy is 2 bookings over a denominator
    of 1. *)
Lemma zero_inventory_occupancy_does_not_fail :
  count_inventory suite_db "Suite" = 0%Z
  /\ ~ (exists e, fst (FE._get_historical_bookings sample_now "Suite"
                         (FE.__init__ suite_db)) = Raised e)
  /\ ~ (exists e, fst (FE.calculate_demand_forecast sample_now sample_forest
                         "Suite" 738997 true (FE.__init__ suite_db)) = Raised e)
  /\ (exists acc, fst (FE.update_forecast_accuracy "Suite" 738985
                         (FE.__init__ suite_db)) = Returned (Some acc)
                  /\ FE.Accuracy.actual_occupancy acc == 2).
Proof.
  split; [reflexivity |]. split; [| split].
  - assert (H : exists v, fst (FE._get_historical_bookings sample_now "Suite"
                                 (FE.__init__ suite_db)) = Returned v)
      by (eexists; vm_compute; reflexivity).
    destruct H as [v Hv]. rewrite Hv. intros [e He]. discriminate.
  - assert (H : exists v, fst (FE.calculate_demand_forecast sample_now sample_forest
                                 "Suite" 738997%Z true (FE.__init__ suite_db))
                          = Returned v)
      by (eexists; vm_compute; reflexivity).
    destruct H as [v Hv]. rewrite Hv. intros [e He]. discriminate.
  - eexists. split; [vm_compute; reflexivity |]. vm_compute. reflexivity.
Qed.

(** C4, amended. For a category whose inventory count is zero the operations
    that compute occupancy do not fail: they divide by [max(count, 1) = 1].
    The occupancy series is returned with each day's occupancy equal to its
    booking count, the forecast is returned, and accuracy tracking is
    returned with the realised occupancy equal to the booking count. *)
Theorem zero_inventory_divides_by_one
        now forest (self : FE.t) room_type target_date use_ml :
  count_inventory (FE.session self) room_type = 0%Z ->
  (exists historical_data,
      FE._get_historical_bookings now room_type self = (Returned historical_data, self)
      /\ forall dp, In dp historical_data ->
           FE.DataPoint.occupancy dp == inject_Z (FE.DataPoint.bookings dp))
  /\ (exists forecast,
         FE.calculate_demand_forecast now forest room_type target_date use_ml self
         = (Returned forecast, self))
  /\ (exists result,
         FE.update_forecast_accuracy room_type target_date self = (Returned result, self)
         /\ forall acc, result = Some acc ->
              FE.Accuracy.actual_occupancy acc
              == inject_Z (count_bookings (FE.session self) room_type target_date)).
Proof.
  intros Hzero. split; [| split].
  - eexists. split; [apply get_historical_bookings_returns |].
    intros dp Hdp. apply in_map_iff in Hdp. destruct Hdp as [d [<- _]].
    simpl. rewrite Hzero. apply Qdiv_one.
  - destruct (forecast_returns_bounded now forest room_type target_date use_ml self)
      as [forecast [Hf _]].
    now exists forecast.
  - destruct (update_forecast_accuracy_returns room_type target_date self)
      as [result [Hr Hocc]].
    exists result. split; [exact Hr |].
    intros acc Hacc. rewrite (Hocc acc Hacc), Hzero. apply Qdiv_one.
Qed.

(** The [Suite] category of [suite_db], which has no inventory row. *)
Lemma zero_inventory_divides_by_one_witness :
  (exists historical_data,
      FE._get_historical_bookings sample_now "Suite" (FE.__init__ suite_db)
      = (Returned historical_data, FE.__init__ suite_db)
      /\ forall dp, In dp historical_data ->
           FE.DataPoint.occupancy dp == inject_Z (FE.DataPoint.bookings dp))
  /\ (exists forecast,
         FE.calculate_demand_forecast sample_now sample_forest "Suite" 738985 true
           (FE.__init__ suite_db)
         = (Returned forecast, FE.__init__ suite_db))
  /\ (exists result,
         FE.update_forecast_accuracy "Suite" 738985 (FE.__init__ suite_db)
         = (Returned result, FE.__init__ suite_db)
         /\ forall acc, result = Some acc ->
              FE.Accuracy.actual_occupancy acc
              == inject_Z (count_bookings (FE.session (FE.__init__ suite_db))
                             "Suite" 738985)).
Proof.
  apply (zero_inventory_divides_by_one sample_now sample_forest
           (FE.__init__ suite_db) "Suite" 738985%Z true).
  reflexivity.
Defined.


(** C6, as stated, fails: with competitor offers of 100, 100 and 400 against
    a base rate of 100 the median ratio is 1.0 (factor 1.0), yet the
    forecast's competitor factor is 1.05, from the mean ratio 2.0. *)
Lemma competitor_impact_is_not_the_median_ratio :
  exists v,
    fst (FE._get_competitor_impact "Deluxe" 739000 (FE.__init__ competitor_db))
    = Returned v
    /\ v == 1.05
    /\ spec_competitor_factor competitor_db "Deluxe" 739000 == 1.0
    /\ ~ v == spec_competitor_factor competitor_db "Deluxe" 739000.
Proof.
  eexists. split; [vm_compute; reflexivity |].
  split; [reflexivity |]. split; [vm_compute; reflexivity |].
  vm_compute. discriminate.
Qed.

(** C6, amended. The forecast's competitor factor is computed from the ratio
    of the arithmetic mean of all competitor rates of the category on the
    target date (whatever their availability) to the category's base rate:
    1.05 when the ratio exceeds 1.10, 0.95 when it is below 0.90, otherwise
    1.0; with no competitor rows it is 1.0. *)
Theorem competitor_impact_from_mean_ratio
        (self : FE.t) room_type target_date (obj : RoomType.t) :
  query_room_type (FE.session self) room_type = Some obj ->
  ~ RoomType.base_rate obj == 0 ->
  let rows := query_competitor_rates (FE.session self) room_type target_date in
  let price_ratio :=
    np_mean (List.map CompetitorRate.rate rows) / RoomType.base_rate obj in
  exists v,
    FE._get_competitor_impact room_type target_date self = (Returned v, self)
    /\ (rows = [] -> v == 1.0)
    /\ (rows <> [] -> 1.1 < price_ratio -> v == 1.05)
    /\ (rows <> [] -> price_ratio < 0.9 -> v == 0.95)
    /\ (rows <> [] -> 0.9 <= price_ratio <= 1.1 -> v == 1.0).
Proof.
  intros Hobj Hbase rows price_ratio.
  unfold FE._get_competitor_impact.
  rewrite (bind_returns _ _ self rows self) by reflexivity.
  subst price_ratio. destruct rows as [|cr rows'].
  - eexists. split; [reflexivity |].
    split; [reflexivity |]. repeat split; intros Hne; now destruct Hne.
  - rewrite (bind_returns _ _ self (Some obj) self)
      by (unfold gets; now rewrite Hobj).
    destruct (Qeq_bool (RoomType.base_rate obj) 0) eqn:Ez;
      [apply Qeq_bool_iff in Ez; contradiction |].
    set (price_ratio := np_mean _ / _).
    destruct (Qltb 1.1 price_ratio) eqn:E1.
    + apply Qltb_lt in E1.
      eexists. split; [reflexivity |].
      split; [discriminate |]. split; [reflexivity |].
      split; intros _ H; lra.
    + apply Qltb_ge in E1. destruct (Qltb price_ratio 0.9) eqn:E2.
      * apply Qltb_lt in E2.
        eexists. split; [reflexivity |].
        split; [discriminate |]. split; [intros _ H; lra |].
        split; [reflexivity |]. intros _ H; lra.
      * apply Qltb_ge in E2.
        eexists. split; [reflexivity |].
        split; [discriminate |]. split; [intros _ H; lra |].
        split; [intros _ H; lra |]. reflexivity.
Qed.

(** The [Deluxe] category of [competitor_db] on 2024-04-24. *)
Lemma competitor_impact_from_mean_ratio_witness :
  let rows := query_competitor_rates (FE.session (FE.__init__ competitor_db))
                "Deluxe" 739000 in
  let price_ratio := np_mean (List.map CompetitorRate.rate rows) / 100 in
  exists v,
    FE._get_competitor_impact "Deluxe" 739000 (FE.__init__ competitor_db)
    = (Returned v, FE.__init__ competitor_db)
    /\ (rows = [] -> v == 1.0)
    /\ (rows <> [] -> 1.1 < price_ratio -> v == 1.05)
    /\ (rows <> [] -> price_ratio < 0.9 -> v == 0.95)
    /\ (rows <> [] -> 0.9 <= price_ratio <= 1.1 -> v == 1.0).
Proof.
  apply (competitor_impact_from_mean_ratio (FE.__init__ competitor_db)
           "Deluxe" 739000%Z (RoomType.mk "Deluxe" 2 100)).
  - reflexivity.
  - vm_compute. discriminate.
Defined.

(** ** The pricing engine *)

Section PricingFacts.

Variable now : datetime.

Ltac read_only_step :=
  first
    [ apply read_only_ret
    | apply read_only_gets
    | apply read_only_raise
    | apply read_only_py_div
    | apply read_only_for_each; intros ?
    | apply read_only_bind; [| intros ?]
    | match goal with
      | |- read_only (match ?x with _ => _ end) => destruct x
      end ].

Ltac read_only_body := repeat read_only_step.

Lemma get_base_rate_read_only room_type :
  read_only (PE.get_base_rate room_type).
Proof. unfold PE.get_base_rate. read_only_body. Qed.

Lemma calculate_demand_fallback_read_only room_type target_date :
  read_only (PE._calculate_demand_fallback room_type target_date).
Proof. unfold PE._calculate_demand_fallback. read_only_body. Qed.

Lemma get_forecasted_demand_read_only room_type target_date :
  read_only (PE.get_forecasted_demand room_type target_date).
Proof. unfold PE.get_forecasted_demand. read_only_body. Qed.

Lemma get_competitor_index_read_only room_type target_date :
  read_only (PE.get_competitor_index room_type target_date).
Proof.
  unfold PE.get_competitor_index.
  apply read_only_bind; [apply get_base_rate_read_only | intros base_rate].
  read_only_body.
Qed.

Lemma get_event_multiplier_read_only target_date :
  read_only (PE.get_event_multiplier target_date).
Proof. unfold PE.get_event_multiplier. read_only_body. Qed.

Lemma calculate_time_factor_read_only target_date lead_time_days :
  read_only (PE.calculate_time_factor now target_date lead_time_days).
Proof. unfold PE.calculate_time_factor. read_only_body. Qed.

Lemma get_floor_ceiling_read_only room_type :
  read_only (PE.get_floor_ceiling room_type).
Proof.
  unfold PE.get_floor_ceiling.
  apply read_only_bind; [apply get_base_rate_read_only | intros base_rate].
  read_only_body.
Qed.

Lemma calculate_dynamic_price_read_only room_type target_date override_params :
  read_only (PE.calculate_dynamic_price now room_type target_date override_params).
Proof.
  unfold PE.calculate_dynamic_price.
  do 4 (apply read_only_bind; [apply read_only_gets | intros ?]).
  apply read_only_bind; [apply get_base_rate_read_only | intros base_rate].
  apply read_only_bind; [apply get_forecasted_demand_read_only | intros demand].
  apply read_only_bind; [apply get_competitor_index_read_only | intros index].
  apply read_only_bind; [apply get_event_multiplier_read_only | intros event].
  apply read_only_bind; [apply calculate_time_factor_read_only | intros time].
  apply read_only_bind; [apply get_floor_ceiling_read_only | intros bounds].
  read_only_body.
Qed.

Lemma calculate_prices_for_period_read_only
      room_type start_date end_date override_params :
  read_only (PE.calculate_prices_for_period now room_type start_date end_date
               override_params).
Proof.
  unfold PE.calculate_prices_for_period.
  apply read_only_for_each. intros d. apply calculate_dynamic_price_read_only.
Qed.

End PricingFacts.

Lemma get_base_rate_returns room_type (self : PE.t) :
  PE.get_base_rate room_type self
  = (Returned (stored_base_rate (PE.session self) room_type), self).
Proof. reflexivity. Qed.

Lemma get_floor_ceiling_returns room_type (self : PE.t) :
  PE.get_floor_ceiling room_type self
  = (Returned (stored_base_rate (PE.session self) room_type * 0.7,
               stored_base_rate (PE.session self) room_type * 1.5), self).
Proof. reflexivity. Qed.

Lemma calculate_demand_fallback_returns room_type target_date (self : PE.t) :
  exists v, PE._calculate_demand_fallback room_type target_date self
            = (Returned v, self).
Proof.
  eexists. cbv [PE._calculate_demand_fallback List.map for_each bind gets ret].
  reflexivity.
Qed.

Lemma get_forecasted_demand_returns room_type target_date (self : PE.t) :
  exists v, PE.get_forecasted_demand room_type target_date self = (Returned v, self).
Proof.
  unfold PE.get_forecasted_demand.
  rewrite (bind_returns _ _ self _ self) by reflexivity.
  destruct (head _); [eexists; reflexivity |].
  apply calculate_demand_fallback_returns.
Qed.

Lemma get_competitor_index_returns room_type target_date (self : PE.t) :
  exists v, PE.get_competitor_index room_type target_date self = (Returned v, self).
Proof.
  unfold PE.get_competitor_index.
  rewrite (bind_returns _ _ _ _ _ (get_base_rate_returns room_type self)).
  unfold bind, gets.
  destruct (query_competitor_rates _ _ _); [eexists; reflexivity |].
  destruct (List.map _ _); eexists; reflexivity.
Qed.

Lemma get_event_multiplier_returns target_date (self : PE.t) :
  exists v, PE.get_event_multiplier target_date self = (Returned v, self).
Proof. eexists. reflexivity. Qed.

(** The time factor is returned unless a positive lead time meets a zero
    [max_lead_time]. *)
Lemma calculate_time_factor_returns now target_date lead_time_days (self : PE.t) :
  PE.max_lead_time self <> 0%Z ->
  exists v, PE.calculate_time_factor now target_date lead_time_days self
            = (Returned v, self).
Proof.
  intros Hmax. unfold PE.calculate_time_factor.
  destruct (_ <=? 0)%Z; [eexists; reflexivity |].
  assert (Hne : ~ inject_Z (PE.max_lead_time self) == 0)
    by (unfold Qeq, inject_Z; simpl; lia).
  rewrite (bind_returns _ _ self _ self) by reflexivity.
  rewrite (bind_returns _ _ self _ self (py_div_returns _ _ self Hne)).
  eexists. reflexivity.
Qed.

Lemma calculate_time_factor_zero_max now target_date (self : PE.t) :
  PE.max_lead_time self = 0%Z ->
  (PE.today now < target_date)%Z ->
  PE.calculate_time_factor now target_date None self
  = (Raised ZeroDivisionError, self).
Proof.
  intros Hmax Hlead. unfold PE.calculate_time_factor.
  replace (target_date - PE.today now <=? 0)%Z with false
    by (symmetry; apply Z.leb_gt; lia).
  rewrite (bind_returns _ _ self _ self) by reflexivity.
  rewrite Hmax. reflexivity.
Qed.

(** A price is returned whenever [max_lead_time] is not zero: its base rate,
    floor and ceiling are those of the category, and its final price is the
    raw price clipped to the bounds and then rounded to two decimals. *)
Lemma calculate_dynamic_price_returns
      now room_type target_date override_params (self : PE.t) :
  PE.max_lead_time self <> 0%Z ->
  exists r raw,
    PE.calculate_dynamic_price now room_type target_date override_params self
    = (Returned r, self)
    /\ PE.PriceInfo.base_rate r = stored_base_rate (PE.session self) room_type
    /\ PE.PriceInfo.floor r = stored_base_rate (PE.session self) room_type * 0.7
    /\ PE.PriceInfo.ceiling r = stored_base_rate (PE.session self) room_type * 1.5
    /\ PE.PriceInfo.final_price r
       = py_round (np_clip raw (PE.PriceInfo.floor r) (PE.PriceInfo.ceiling r)) 2.
Proof.
  intros Hmax. unfold PE.calculate_dynamic_price.
  do 4 (rewrite (bind_returns _ _ self _ self) by reflexivity).
  rewrite (bind_returns _ _ _ _ _ (get_base_rate_returns room_type self)).
  destruct (get_forecasted_demand_returns room_type target_date self) as [v1 H1].
  destruct (get_competitor_index_returns room_type target_date self) as [v2 H2].
  destruct (get_event_multiplier_returns target_date self) as [v3 H3].
  destruct (calculate_time_factor_returns now target_date None self Hmax) as [v4 H4].
  rewrite (bind_returns _ _ _ _ _ H1), (bind_returns _ _ _ _ _ H2),
    (bind_returns _ _ _ _ _ H3), (bind_returns _ _ _ _ _ H4).
  rewrite (bind_returns _ _ _ _ _ (get_floor_ceiling_returns room_type self)).
  rewrite (bind_returns _ _ self _ self) by reflexivity.
  eexists. eexists. split; [reflexivity |]. simpl. repeat split.
Qed.

Lemma round_half_even_error (y : Q) :
  Qabs (inject_Z (round_half_even y) - y) <= 1 # 2.
Proof.
  unfold round_half_even.
  pose proof (Qfloor_le y) as Hlo. pose proof (Qlt_floor y) as Hhi.
  rewrite inject_Z_plus in Hhi. change (inject_Z 1) with 1 in Hhi.
  apply Qabs_Qle_condition.
  assert (Hup : inject_Z (Qfloor y + 1) == inject_Z (Qfloor y) + 1)
    by (rewrite inject_Z_plus; reflexivity).
  destruct (Qcompare_spec (y - inject_Z (Qfloor y)) (1 # 2)) as [E|E|E];
    [destruct (Z.even (Qfloor y)) | |];
    rewrite ?Hup; generalize dependent (inject_Z (Qfloor y)); intros q; intros;
    split; lra.
Qed.

(** Rounding to two decimals moves a value by at most half a cent. *)
Lemma py_round_two_error (x : Q) : Qabs (py_round x 2 - x) <= 0.005.
Proof.
  unfold py_round. change (inject_Z (10 ^ 2)) with 100.
  pose proof (round_half_even_error (x * 100)) as H.
  apply Qabs_Qle_condition in H. apply Qabs_Qle_condition.
  generalize dependent (inject_Z (round_half_even (x * 100))). intros n Hn.
  unfold Qdiv. change (/ 100) with (1 # 100).
  split; lra.
Qed.

(** Whenever a price is returned, the coefficients recorded in it are the
    caller's overrides where given and the engine's own otherwise. *)
Lemma calculate_dynamic_price_coefficients
      now room_type target_date override_params (self : PE.t) r :
  fst (PE.calculate_dynamic_price now room_type target_date override_params self)
  = Returned r ->
  PE.PriceInfo.coefficients r
  = {| PE.Coefficients.alpha := PE.override override_params "alpha" (PE.alpha self);
       PE.Coefficients.beta := PE.override override_params "beta" (PE.beta self);
       PE.Coefficients.gamma := PE.override override_params "gamma" (PE.gamma self);
       PE.Coefficients.delta := PE.override override_params "delta" (PE.delta self) |}.
Proof.
  unfold PE.calculate_dynamic_price.
  do 4 (rewrite (bind_returns _ _ self _ self) by reflexivity).
  rewrite (bind_returns _ _ _ _ _ (get_base_rate_returns room_type self)).
  destruct (get_forecasted_demand_returns room_type target_date self) as [v1 H1].
  destruct (get_competitor_index_returns room_type target_date self) as [v2 H2].
  destruct (get_event_multiplier_returns target_date self) as [v3 H3].
  rewrite (bind_returns _ _ _ _ _ H1), (bind_returns _ _ _ _ _ H2),
    (bind_returns _ _ _ _ _ H3).
  pose proof (calculate_time_factor_read_only now target_date None self) as Hframe.
  destruct (PE.calculate_time_factor now target_date None self) as [[v4|e] s']
    eqn:Ht; simpl in Hframe; subst s'.
  - rewrite (bind_returns _ _ _ _ _ Ht).
    rewrite (bind_returns _ _ _ _ _ (get_floor_ceiling_returns room_type self)).
    rewrite (bind_returns _ _ self _ self) by reflexivity.
    simpl. intros Hr. injection Hr as <-. reflexivity.
  - rewrite (bind_raises _ _ _ _ _ Ht). simpl. discriminate.
Qed.

(** ** Pricing claims *)

(** [update_coefficients], by contrast, does change the engine. *)
Example update_coefficients_changes_alpha :
  PE.alpha (snd (PE.update_coefficients (Some 0.9) None None None
                   (PE.__init__ empty_db))) = 0.9
  /\ PE.alpha (PE.__init__ empty_db) = 0.3.
Proof. split; reflexivity. Qed.

(** C9. A call of [calculate_dynamic_price] with caller-supplied coefficient
    overrides leaves the engine object (its stored coefficients, baseline,
    maximum lead time and session) exactly as it was, whether it returns or
    raises; the overrides show in that call's result only: the returned
    record carries them, and a later call without overrides behaves as if
    the overridden call had not been made. *)
Theorem overrides_leave_engine_unchanged
        now (self : PE.t) room_type target_date
        (override_params : option (gmap string Q)) :
  snd (PE.calculate_dynamic_price now room_type target_date override_params self)
  = self
  /\ (forall r,
        fst (PE.calculate_dynamic_price now room_type target_date
               override_params self) = Returned r ->
        PE.Coefficients.alpha (PE.PriceInfo.coefficients r)
        = PE.override override_params "alpha" (PE.alpha self)
        /\ PE.Coefficients.beta (PE.PriceInfo.coefficients r)
           = PE.override override_params "beta" (PE.beta self)
        /\ PE.Coefficients.gamma (PE.PriceInfo.coefficients r)
           = PE.override override_params "gamma" (PE.gamma self)
        /\ PE.Coefficients.delta (PE.PriceInfo.coefficients r)
           = PE.override override_params "delta" (PE.delta self))
  /\ (forall room_type' target_date',
        PE.calculate_dynamic_price now room_type' target_date' None
          (snd (PE.calculate_dynamic_price now room_type target_date
                  override_params self))
        = PE.calculate_dynamic_price now room_type' target_date' None self).
Proof.
  pose proof (calculate_dynamic_price_read_only now room_type target_date
                override_params self) as Hframe.
  split; [exact Hframe |]. split.
  - intros r Hr.
    rewrite (calculate_dynamic_price_coefficients now room_type target_date
               override_params self r Hr).
    repeat split.
  - intros room_type' target_date'. now rewrite Hframe.
Qed.

Lemma query_room_type_unknown (db : Session) room_type :
  Forall (fun rt => RoomType.name rt <> room_type) (room_types db) ->
  query_room_type db room_type = None.
Proof.
  unfold query_room_type. intros Hall.
  induction Hall as [|rt rts Hrt _ IH]; simpl; [reflexivity |].
  apply String.eqb_neq in Hrt. now rewrite Hrt.
Qed.

(** C5, as stated, fails: looking up a category the store does not know
    raises nothing; it yields the base rate 300, and the pricing call
    returns a price record built on it. *)
Lemma unknown_category_lookup_does_not_fail :
  query_room_type competitor_db "Penthouse" = None
  /\ ~ (exists e, fst (PE.get_base_rate "Penthouse" (PE.__init__ competitor_db))
                  = Raised e)
  /\ fst (PE.get_base_rate "Penthouse" (PE.__init__ competitor_db)) = Returned 300
  /\ exists r,
       fst (PE.calculate_dynamic_price sample_now "Penthouse" 739000 None
              (PE.__init__ competitor_db)) = Returned r
       /\ PE.PriceInfo.base_rate r = 300.
Proof.
  split; [reflexivity |]. split; [intros [e He]; discriminate |].
  split; [reflexivity |].
  eexists. split; [vm_compute; reflexivity | reflexivity].
Qed.

(** C5, amended. For a category name unknown to the store the lookup does
    not fail: [get_base_rate] returns the default base rate 300, and a
    pricing call for that category (the engine's [max_lead_time] not being
    zero) returns a price record with base rate 300, floor 210 and ceiling
    450. *)
Theorem unknown_category_uses_default_base_rate
        now (self : PE.t) room_type target_date
        (override_params : option (gmap string Q)) :
  Forall (fun rt => RoomType.name rt <> room_type) (room_types (PE.session self)) ->
  PE.max_lead_time self <> 0%Z ->
  PE.get_base_rate room_type self = (Returned 300, self)
  /\ exists r,
       PE.calculate_dynamic_price now room_type target_date override_params self
       = (Returned r, self)
       /\ PE.PriceInfo.base_rate r = 300
       /\ PE.PriceInfo.floor r == 210
       /\ PE.PriceInfo.ceiling r == 450.
Proof.
  intros Hunknown Hmax.
  assert (Hrate : stored_base_rate (PE.session self) room_type = 300)
    by (unfold stored_base_rate; now rewrite query_room_type_unknown).
  split; [now rewrite get_base_rate_returns, Hrate |].
  destruct (calculate_dynamic_price_returns now room_type target_date
              override_params self Hmax)
    as [r [raw [Hr [Hbase [Hfloor [Hceiling _]]]]]].
  exists r. rewrite Hbase, Hfloor, Hceiling, Hrate.
  split; [exact Hr |]. split; [reflexivity |]. split; reflexivity.
Qed.

(** The category [Penthouse], which [competitor_db] does not hold. *)
Lemma unknown_category_uses_default_base_rate_witness :
  PE.get_base_rate "Penthouse" (PE.__init__ competitor_db)
  = (Returned 300, PE.__init__ competitor_db)
  /\ exists r,
       PE.calculate_dynamic_price sample_now "Penthouse" 739000 None
         (PE.__init__ competitor_db)
       = (Returned r, PE.__init__ competitor_db)
       /\ PE.PriceInfo.base_rate r = 300
       /\ PE.PriceInfo.floor r == 210
       /\ PE.PriceInfo.ceiling r == 450.
Proof.
  apply (unknown_category_uses_default_base_rate sample_now
           (PE.__init__ competitor_db) "Penthouse" 739000%Z None).
  - repeat constructor. discriminate.
  - discriminate.
Defined.

(** C7, as stated, fails for the raw price: when another factor vanishes the
    raw price is 0 at every demand, although the demand factor does
    increase. With [beta = 2] and a competitor index of 0.5 the competitor
    factor is 0; with [delta = 2] and an event multiplier of 0.5 the event
    factor is 0. *)
Lemma raw_price_not_increasing_when_a_factor_vanishes :
  0 < 0.3
  /\ 0.5 < 0.9
  /\ PE.demand_factor 0.3 0.5 0.75 < PE.demand_factor 0.3 0.9 0.75
  /\ ~ (PE.raw_price 280 (PE.demand_factor 0.3 0.5 0.75)
          (PE.competitor_factor 2 0.5) (PE.event_factor 1.0 1.0)
          (PE.time_discount_factor 0.02 0)
        < PE.raw_price 280 (PE.demand_factor 0.3 0.9 0.75)
            (PE.competitor_factor 2 0.5) (PE.event_factor 1.0 1.0)
            (PE.time_discount_factor 0.02 0))
  /\ ~ (PE.raw_price 280 (PE.demand_factor 0.3 0.5 0.75)
          (PE.competitor_factor 0.25 1.0) (PE.event_factor 2 0.5)
          (PE.time_discount_factor 0.02 0)
        < PE.raw_price 280 (PE.demand_factor 0.3 0.9 0.75)
            (PE.competitor_factor 0.25 1.0) (PE.event_factor 2 0.5)
            (PE.time_discount_factor 0.02 0)).
Proof.
  split; [reflexivity |]. split; [reflexivity |]. split; [reflexivity |].
  split; vm_compute; discriminate.
Qed.

(** C7, amended. With the other inputs fixed and [alpha > 0], a larger
    forecasted demand gives a strictly larger demand factor; it gives a
    strictly larger raw price when, in addition, the product of the base
    rate with the competitor, event and time-discount factors is positive. *)
Theorem raw_price_increases_with_demand
        (alpha beta gamma delta baseline_demand base_rate
         competitor_index event_multiplier time_factor d1 d2 : Q) :
  0 < alpha ->
  d1 < d2 ->
  0 < base_rate * PE.competitor_factor beta competitor_index
      * PE.event_factor delta event_multiplier
      * PE.time_discount_factor gamma time_factor ->
  PE.demand_factor alpha d1 baseline_demand < PE.demand_factor alpha d2 baseline_demand
  /\ PE.raw_price base_rate (PE.demand_factor alpha d1 baseline_demand)
       (PE.competitor_factor beta competitor_index)
       (PE.event_factor delta event_multiplier)
       (PE.time_discount_factor gamma time_factor)
     < PE.raw_price base_rate (PE.demand_factor alpha d2 baseline_demand)
         (PE.competitor_factor beta competitor_index)
         (PE.event_factor delta event_multiplier)
         (PE.time_discount_factor gamma time_factor).
Proof.
  intros Halpha Hd Hrest.
  set (cf := PE.competitor_factor beta competitor_index) in *.
  set (ef := PE.event_factor delta event_multiplier) in *.
  set (tdf := PE.time_discount_factor gamma time_factor) in *.
  assert (Hdf : PE.demand_factor alpha d1 baseline_demand
                < PE.demand_factor alpha d2 baseline_demand).
  { unfold PE.demand_factor.
    assert (alpha * d1 < alpha * d2) by (apply Qmult_lt_l; assumption).
    lra. }
  split; [exact Hdf |].
  unfold PE.raw_price.
  set (f1 := PE.demand_factor alpha d1 baseline_demand) in *.
  set (f2 := PE.demand_factor alpha d2 baseline_demand) in *.
  assert (E1 : base_rate * f1 * cf * ef * tdf == base_rate * cf * ef * tdf * f1)
    by ring.
  assert (E2 : base_rate * f2 * cf * ef * tdf == base_rate * cf * ef * tdf * f2)
    by ring.
  rewrite E1, E2. apply Qmult_lt_l; assumption.
Qed.

(** Default coefficients, base rate 280, demands 0.5 and 0.9. *)
Lemma raw_price_increases_with_demand_witness :
  PE.demand_factor 0.3 0.5 0.75 < PE.demand_factor 0.3 0.9 0.75
  /\ PE.raw_price 280 (PE.demand_factor 0.3 0.5 0.75)
       (PE.competitor_factor 0.25 1.0) (PE.event_factor 1.0 1.0)
       (PE.time_discount_factor 0.02 0)
     < PE.raw_price 280 (PE.demand_factor 0.3 0.9 0.75)
         (PE.competitor_factor 0.25 1.0) (PE.event_factor 1.0 1.0)
         (PE.time_discount_factor 0.02 0).
Proof.
  apply (raw_price_increases_with_demand 0.3 0.25 0.02 1.0 0.75 280 1.0 1.0 0
           0.5 0.9); reflexivity.
Defined.

(** The same through the code: with [override_params = {'beta': 2}] and a
    competitor median of half the base rate, stored forecasts of 0.5 and of
    0.9 both give the raw price 0. *)
Example overridden_beta_flattens_raw_price :
  exists r1 r2,
    fst (PE.calculate_dynamic_price sample_now "Deluxe" 739000 beta_two
           (PE.__init__ (forecast_db 0.5))) = Returned r1
    /\ fst (PE.calculate_dynamic_price sample_now "Deluxe" 739000 beta_two
              (PE.__init__ (forecast_db 0.9))) = Returned r2
    /\ PE.PriceInfo.raw_price r1 == 0
    /\ PE.PriceInfo.raw_price r2 == 0.
Proof.
  do 2 eexists.
  split; [vm_compute; reflexivity |]. split; [vm_compute; reflexivity |].
  split; vm_compute; reflexivity.
Qed.

(** C1, as stated, fails. For a base rate of 100.02 the floor is 70.014, the
    clipped price is the floor, and the returned [final_price] is that
    value rounded to two decimals, 70.01, below the returned floor. For a
    category stored with a negative base rate the floor lies above the
    ceiling and the clip yields the ceiling, again below the floor. *)
Lemma returned_price_can_lie_below_floor :
  (exists r,
      fst (PE.calculate_dynamic_price sample_now "Deluxe" 739000 None
             (PE.__init__ rounding_db)) = Returned r
      /\ PE.PriceInfo.floor r == 70.014
      /\ PE.PriceInfo.final_price r == 70.01
      /\ ~ PE.PriceInfo.floor r <= PE.PriceInfo.final_price r)
  /\ (exists r,
         fst (PE.calculate_dynamic_price sample_now "Deluxe" 739000 None
                (PE.__init__ negative_rate_db)) = Returned r
         /\ PE.PriceInfo.floor r == -70
         /\ PE.PriceInfo.final_price r == -150
         /\ ~ PE.PriceInfo.floor r <= PE.PriceInfo.final_price r).
Proof.
  split; eexists; (split; [vm_compute; reflexivity |]);
    (split; [vm_compute; reflexivity |]); (split; [vm_compute; reflexivity |]);
    vm_compute; intros H; apply H; reflexivity.
Qed.

(** C1, amended. For every room category whose base rate is positive and
    every target date, on an engine whose [max_lead_time] is not zero,
    [calculate_dynamic_price] returns a record with [floor = 0.7 * base_rate]
    and [ceiling = 1.5 * base_rate], and its [final_price] is the rounding to
    two decimals of a price [p] with [floor <= p <= ceiling]; so the returned
    price is within 0.005 of the interval from floor to ceiling. *)
Theorem final_price_is_rounded_clipped_price
        now (self : PE.t) room_type target_date
        (override_params : option (gmap string Q)) :
  PE.max_lead_time self <> 0%Z ->
  0 < stored_base_rate (PE.session self) room_type ->
  exists r p,
    PE.calculate_dynamic_price now room_type target_date override_params self
    = (Returned r, self)
    /\ PE.PriceInfo.base_rate r = stored_base_rate (PE.session self) room_type
    /\ PE.PriceInfo.floor r == 0.7 * PE.PriceInfo.base_rate r
    /\ PE.PriceInfo.ceiling r == 1.5 * PE.PriceInfo.base_rate r
    /\ PE.PriceInfo.floor r <= p <= PE.PriceInfo.ceiling r
    /\ PE.PriceInfo.final_price r = py_round p 2
    /\ PE.PriceInfo.floor r - 0.005 <= PE.PriceInfo.final_price r
       <= PE.PriceInfo.ceiling r + 0.005.
Proof.
  intros Hmax Hbase.
  destruct (calculate_dynamic_price_returns now room_type target_date
              override_params self Hmax)
    as [r [raw [Hr [Hrate [Hfloor [Hceiling Hfinal]]]]]].
  exists r, (np_clip raw (PE.PriceInfo.floor r) (PE.PriceInfo.ceiling r)).
  assert (Hbounds : PE.PriceInfo.floor r
                    <= np_clip raw (PE.PriceInfo.floor r) (PE.PriceInfo.ceiling r)
                    <= PE.PriceInfo.ceiling r)
    by (apply np_clip_bounds; rewrite Hfloor, Hceiling; lra).
  pose proof (py_round_two_error
                (np_clip raw (PE.PriceInfo.floor r) (PE.PriceInfo.ceiling r)))
    as Hround.
  apply Qabs_Qle_condition in Hround. rewrite <- Hfinal in Hround.
  split; [exact Hr |]. split; [exact Hrate |].
  split; [rewrite Hfloor, Hrate; ring |].
  split; [rewrite Hceiling, Hrate; ring |].
  split; [exact Hbounds |]. split; [exact Hfinal |].
  split; lra.
Qed.

(** The [Deluxe] category of [rounding_db], priced for 2024-04-24. *)
Lemma final_price_is_rounded_clipped_price_witness :
  exists r p,
    PE.calculate_dynamic_price sample_now "Deluxe" 739000 None
      (PE.__init__ rounding_db)
    = (Returned r, PE.__init__ rounding_db)
    /\ PE.PriceInfo.base_rate r
       = stored_base_rate (PE.session (PE.__init__ rounding_db)) "Deluxe"
    /\ PE.PriceInfo.floor r == 0.7 * PE.PriceInfo.base_rate r
    /\ PE.PriceInfo.ceiling r == 1.5 * PE.PriceInfo.base_rate r
    /\ PE.PriceInfo.floor r <= p <= PE.PriceInfo.ceiling r
    /\ PE.PriceInfo.final_price r = py_round p 2
    /\ PE.PriceInfo.floor r - 0.005 <= PE.PriceInfo.final_price r
       <= PE.PriceInfo.ceiling r + 0.005.
Proof.
  apply (final_price_is_rounded_clipped_price sample_now
           (PE.__init__ rounding_db) "Deluxe" 739000%Z None).
  - discriminate.
  - reflexivity.
Defined.

(** * Further properties of the two engines *)

(** ** Sums and means *)

Lemma Qlen_cons (x : Q) (l : list Q) : Qlen (x :: l) == Qlen l + 1.
Proof.
  unfold Qlen. cbn [length]. rewrite Nat2Z.inj_succ, <- Z.add_1_r, inject_Z_plus.
  reflexivity.
Qed.

Lemma Qlen_nonneg (l : list Q) : 0 <= Qlen l.
Proof. unfold Qlen, Qle. simpl. lia. Qed.

Lemma Qlen_pos (l : list Q) : l <> [] -> 0 < Qlen l.
Proof.
  destruct l as [|x l]; [congruence |]. intros _.
  rewrite Qlen_cons. pose proof (Qlen_nonneg l). lra.
Qed.

Lemma Qsum_fold_bounds (l : list Q) (lo hi acc : Q) :
  (forall x, In x l -> lo <= x <= hi) ->
  acc + lo * Qlen l
  <= foldl (fun a x => Qred (a + x)) acc l
  <= acc + hi * Qlen l.
Proof.
  revert acc. induction l as [|x l IH]; intros acc Hall.
  - simpl. change (Qlen []) with 0. split; lra.
  - cbn [foldl].
    assert (Hx : lo <= x <= hi) by (apply Hall; now left).
    assert (Hl : forall y, In y l -> lo <= y <= hi)
      by (intros y Hy; apply Hall; now right).
    specialize (IH (Qred (acc + x)) Hl).
    pose proof (Qred_correct (acc + x)) as Hred. rewrite Qlen_cons.
    generalize dependent (foldl (fun a x => Qred (a + x)) (Qred (acc + x)) l).
    intros total. generalize dependent (Qred (acc + x)). intros r.
    generalize (Qlen l). intros n Hred IH.
    split; nra.
Qed.

(** The mean of a non-empty list lies between any bounds of its elements. *)
Lemma np_mean_bounds (l : list Q) (lo hi : Q) :
  l <> [] ->
  (forall x, In x l -> lo <= x <= hi) ->
  lo <= np_mean l <= hi.
Proof.
  intros Hne Hall. unfold np_mean, Qsum.
  pose proof (Qlen_pos l Hne) as Hpos.
  pose proof (Qsum_fold_bounds l lo hi 0 Hall) as [Hlo Hhi].
  split.
  - apply Qle_shift_div_l; [exact Hpos | lra].
  - apply Qle_shift_div_r; [exact Hpos | lra].
Qed.

Lemma np_mean_nonneg (l : list Q) :
  (forall x, In x l -> 0 <= x) -> 0 <= np_mean l.
Proof.
  intros Hall. destruct l as [|x l]; [vm_compute; discriminate |].
  assert (Hne : x :: l <> []) by discriminate.
  unfold np_mean, Qsum. apply Qle_shift_div_l; [apply Qlen_pos, Hne |].
  revert Hall. generalize (x :: l). clear. intros l Hall.
  assert (H : forall acc, 0 <= acc ->
                0 <= foldl (fun a x => Qred (a + x)) acc l).
  { induction l as [|y l IH]; intros acc Hacc; [exact Hacc |].
    cbn [foldl]. apply IH.
    - intros z Hz. apply Hall. now right.
    - pose proof (Qred_correct (acc + y)) as Hred.
      specialize (Hall y (or_introl eq_refl)).
      generalize dependent (Qred (acc + y)). intros r Hred. lra. }
  specialize (H 0 ltac:(lra)). lra.
Qed.

Lemma np_var_nonneg (l : list Q) : 0 <= np_var l.
Proof.
  unfold np_var. apply np_mean_nonneg. intros x Hx.
  apply in_map_iff in Hx. destruct Hx as [y [<- _]].
  generalize (y - np_mean l). intros d. nra.
Qed.

(** ** More on the forecast *)

Section ForecastPaths.

Variable now : datetime.
Variable forest : list (list Z) -> list Q -> list Z -> option Q.

(** With at least 14 points the forecast is assembled from the six factors
    and the base demand, each as its own method returns it. *)
Lemma forecast_long_series room_type target_date use_ml (self : FE.t) historical_data :
  FE._get_historical_bookings now room_type self = (Returned historical_data, self) ->
  (14 <= length historical_data)%nat ->
  exists seasonality trend dow lead competitor event base confidence,
    FE._calculate_seasonality target_date historical_data self
    = (Returned seasonality, self)
    /\ FE._calculate_trend historical_data self = (Returned trend, self)
    /\ FE._calculate_dow_factor target_date historical_data self = (Returned dow, self)
    /\ FE._calculate_lead_time_impact now room_type target_date self
       = (Returned lead, self)
    /\ FE._get_competitor_impact room_type target_date self = (Returned competitor, self)
    /\ FE._get_event_impact target_date self = (Returned event, self)
    /\ (if use_ml && (30 <=? length historical_data)%nat
        then FE._ml_demand_forecast now forest room_type target_date historical_data
        else FE._exponential_smoothing_forecast historical_data) self
       = (Returned base, self)
    /\ FE._calculate_confidence historical_data
         (np_clip (base * seasonality * trend * dow * competitor * event * lead)
                  0.0 1.0) self
       = (Returned confidence, self)
    /\ FE.calculate_demand_forecast now forest room_type target_date use_ml self
       = (Returned
            {| FE.Forecast.room_type := room_type;
               FE.Forecast.target_date := target_date;
               FE.Forecast.forecasted_demand :=
                 np_clip (base * seasonality * trend * dow * competitor * event * lead)
                         0.0 1.0;
               FE.Forecast.components :=
                 {| FE.ForecastComponents.base_demand := base;
                    FE.ForecastComponents.seasonality_factor := seasonality;
                    FE.ForecastComponents.trend_factor := trend;
                    FE.ForecastComponents.day_of_week_factor := dow;
                    FE.ForecastComponents.lead_time_factor := lead;
                    FE.ForecastComponents.competitor_factor := competitor;
                    FE.ForecastComponents.event_factor := event |};
               FE.Forecast.confidence := confidence;
               FE.Forecast.model_used :=
                 if use_ml && (30 <=? length historical_data)%nat
                 then "ml"%string else "exponential_smoothing"%string |},
          self).
Proof.
  intros Hseries Hlen.
  destruct (calculate_seasonality_returns target_date historical_data self) as [v1 H1].
  destruct (calculate_trend_returns historical_data self) as [v2 H2].
  destruct (calculate_dow_factor_returns target_date historical_data self) as [v3 H3].
  destruct (calculate_lead_time_impact_returns now room_type target_date self)
    as [v4 H4].
  destruct (get_competitor_impact_returns room_type target_date self) as [v5 H5].
  destruct (get_event_impact_returns target_date self) as [v6 H6].
  assert (Hbase : exists v,
             (if use_ml && (30 <=? length historical_data)%nat
              then FE._ml_demand_forecast now forest room_type target_date historical_data
              else FE._exponential_smoothing_forecast historical_data) self
             = (Returned v, self)).
  { destruct (use_ml && _);
      [apply ml_demand_forecast_returns | apply exponential_smoothing_returns]. }
  destruct Hbase as [v7 H7].
  destruct (calculate_confidence_returns historical_data
              (np_clip (v7 * v1 * v2 * v3 * v5 * v6 * v4) 0.0 1.0) self) as [v8 H8].
  exists v1, v2, v3, v4, v5, v6, v7, v8.
  repeat (split; [assumption |]).
  unfold FE.calculate_demand_forecast.
  rewrite (bind_returns _ _ _ _ _ Hseries).
  replace (length historical_data <? 14)%nat with false
    by (symmetry; apply Nat.ltb_ge; exact Hlen).
  rewrite (bind_returns _ _ _ _ _ H1), (bind_returns _ _ _ _ _ H2),
    (bind_returns _ _ _ _ _ H3), (bind_returns _ _ _ _ _ H4),
    (bind_returns _ _ _ _ _ H5), (bind_returns _ _ _ _ _ H6),
    (bind_returns _ _ _ _ _ H7), (bind_returns _ _ _ _ _ H8).
  reflexivity.
Qed.

End ForecastPaths.

(** The series of the engine as constructed has 91 points. *)
Lemma default_series_length now (db : Session) room_type :
  exists historical_data,
    FE._get_historical_bookings now room_type (FE.__init__ db)
    = (Returned historical_data, FE.__init__ db)
    /\ length historical_data = 91%nat
    /\ historical_data
       = List.map (occupancy_point db room_type) (seqZ (FE.today now - 90) 91).
Proof.
  eexists. split; [apply get_historical_bookings_returns |].
  cbn [FE.lookback_days FE.session FE.__init__].
  assert (Hrange : date_range (FE.today now - 90) (FE.today now)
                   = seqZ (FE.today now - 90) 91)
    by (unfold date_range; f_equal; lia).
  rewrite Hrange, length_map, length_seqZ. split; reflexivity.
Qed.

(** X1. With the attributes the constructor sets (a lookback of 90 days) the
    forecast never takes the fallback path, whatever the store holds, even
    with no booking at all: [model_used] is "ml" when [use_ml] is set and
    "exponential_smoothing" when it is not. *)
Theorem default_engine_never_uses_fallback now forest (db : Session)
        room_type target_date use_ml :
  exists forecast,
    FE.calculate_demand_forecast now forest room_type target_date use_ml
      (FE.__init__ db)
    = (Returned forecast, FE.__init__ db)
    /\ FE.Forecast.model_used forecast
       = (if use_ml then "ml" else "exponential_smoothing")%string
    /\ FE.Forecast.model_used forecast <> "fallback"%string.
Proof.
  destruct (default_series_length now db room_type) as [data [Hdata [Hlen _]]].
  destruct (forecast_long_series now forest room_type target_date use_ml
              (FE.__init__ db) data Hdata ltac:(lia))
    as (s & t & w & l & c & e & b & conf & _ & _ & _ & _ & _ & _ & _ & _ & Hf).
  eexists. split; [exact Hf |]. cbn [FE.Forecast.model_used].
  rewrite Hlen. destruct use_ml; simpl; split; [reflexivity | discriminate
                                               | reflexivity | discriminate].
Qed.

(** X2. When the random forest raises, the forecast of the engine as
    constructed still returns: its base demand is the value of exponential
    smoothing over the series, and yet [model_used] reads "ml". *)
Theorem failed_model_is_still_labelled_ml now forest (db : Session)
        room_type target_date :
  (forall X y x, forest X y x = None) ->
  exists forecast historical_data smoothed,
    FE.calculate_demand_forecast now forest room_type target_date true
      (FE.__init__ db)
    = (Returned forecast, FE.__init__ db)
    /\ FE._get_historical_bookings now room_type (FE.__init__ db)
       = (Returned historical_data, FE.__init__ db)
    /\ FE._exponential_smoothing_forecast historical_data (FE.__init__ db)
       = (Returned smoothed, FE.__init__ db)
    /\ FE.ForecastComponents.base_demand (FE.Forecast.components forecast) = smoothed
    /\ FE.Forecast.model_used forecast = "ml"%string.
Proof.
  intros Hfails.
  destruct (default_series_length now db room_type) as [data [Hdata [Hlen _]]].
  destruct (forecast_long_series now forest room_type target_date true
              (FE.__init__ db) data Hdata ltac:(lia))
    as (s & t & w & l & c & e & b & conf & _ & _ & _ & _ & _ & _ & Hb & _ & Hf).
  rewrite Hlen in Hb, Hf. cbn [andb Nat.leb] in Hb, Hf.
  eexists. exists data, b. split; [exact Hf |]. split; [exact Hdata |].
  split; [| split; reflexivity].
  unfold FE._ml_demand_forecast in Hb.
  rewrite Hlen in Hb. cbn [Nat.ltb Nat.leb] in Hb.
  rewrite length_map, length_take, Hlen in Hb. cbn in Hb.
  rewrite Hfails in Hb. exact Hb.
Qed.

(** The engine as constructed over an empty store, with a forest that
    always raises. *)
Lemma failed_model_is_still_labelled_ml_witness :
  exists forecast historical_data smoothed,
    FE.calculate_demand_forecast sample_now failing_forest "Deluxe" 739000 true
      (FE.__init__ empty_db)
    = (Returned forecast, FE.__init__ empty_db)
    /\ FE._get_historical_bookings sample_now "Deluxe" (FE.__init__ empty_db)
       = (Returned historical_data, FE.__init__ empty_db)
    /\ FE._exponential_smoothing_forecast historical_data (FE.__init__ empty_db)
       = (Returned smoothed, FE.__init__ empty_db)
    /\ FE.ForecastComponents.base_demand (FE.Forecast.components forecast) = smoothed
    /\ FE.Forecast.model_used forecast = "ml"%string.
Proof.
  apply (failed_model_is_still_labelled_ml sample_now failing_forest empty_db
           "Deluxe" 739000%Z).
  intros X y x. reflexivity.
Defined.

(** The trend factor is always returned and lies within [0.8, 1.2]; for
    fewer than seven points it is 1. *)
Lemma trend_factor_is_limited historical_data (self : FE.t) :
  exists v,
    FE._calculate_trend historical_data self = (Returned v, self)
    /\ 0.8 <= v <= 1.2
    /\ ((length historical_data < 7)%nat -> v == 1).
Proof.
  unfold FE._calculate_trend.
  destruct (length historical_data <? 7)%nat eqn:E.
  - eexists. split; [reflexivity |]. split; [lra |]. reflexivity.
  - eexists. split; [reflexivity |]. split.
    + apply np_clip_bounds. lra.
    + intros Hlen. apply Nat.ltb_ge in E. lia.
Qed.

(** The confidence is always returned and lies within [0.3, 1]; for
    fewer than seven points it is 0.3. *)
Lemma confidence_within_range historical_data forecast (self : FE.t) :
  exists c,
    FE._calculate_confidence historical_data forecast self = (Returned c, self)
    /\ 0.3 <= c <= 1
    /\ ((length historical_data < 7)%nat -> c == 0.3).
Proof.
  unfold FE._calculate_confidence.
  destruct (length historical_data <? 7)%nat eqn:E.
  - eexists. split; [reflexivity |]. split; [lra |]. reflexivity.
  - eexists. split; [reflexivity |]. split.
    + pose proof (np_var_nonneg (List.map FE.DataPoint.occupancy historical_data))
        as Hvar.
      generalize dependent (np_var (List.map FE.DataPoint.occupancy historical_data)).
      intros variance Hvar.
      destruct (Q.min_spec (variance * 2) 0.7) as [[H1 Hmin]|[H1 Hmin]];
        destruct (Q.max_spec (1.0 - Qmin (variance * 2) 0.7) 0.3)
          as [[H2 Hmax]|[H2 Hmax]];
        rewrite Hmax; rewrite Hmin in *; split; lra.
    + intros Hlen. apply Nat.ltb_ge in E. lia.
Qed.

Lemma lead_time_impact_values now room_type target_date (self : FE.t) :
  exists v,
    FE._calculate_lead_time_impact now room_type target_date self = (Returned v, self)
    /\ (v == 0.95 \/ v == 1 \/ v == 1.05 \/ v == 1.1).
Proof.
  unfold FE._calculate_lead_time_impact.
  destruct (_ <=? 0)%Z;
    [eexists; split; [reflexivity | right; right; right; reflexivity] |].
  rewrite (bind_returns _ _ self _ self) by reflexivity.
  destruct (List.map _ _);
    [eexists; split; [reflexivity | right; left; reflexivity] |].
  destruct (Qltb _ _);
    [eexists; split; [reflexivity | right; right; left; reflexivity] |].
  destruct (Qltb _ _); eexists; (split; [reflexivity |]);
    [left; reflexivity | right; left; reflexivity].
Qed.

Lemma competitor_impact_values room_type target_date (self : FE.t) :
  exists v,
    FE._get_competitor_impact room_type target_date self = (Returned v, self)
    /\ (v == 0.95 \/ v == 1 \/ v == 1.05).
Proof.
  unfold FE._get_competitor_impact.
  rewrite (bind_returns _ _ self _ self) by reflexivity.
  destruct (query_competitor_rates _ _ _);
    [eexists; split; [reflexivity | right; left; reflexivity] |].
  rewrite (bind_returns _ _ self _ self) by reflexivity.
  destruct (query_room_type _ _);
    [| eexists; split; [reflexivity | right; left; reflexivity]].
  destruct (Qeq_bool _ 0); (destruct (Qltb _ _); [| destruct (Qltb _ _)]);
    eexists; (split; [reflexivity |]);
    solve [left; reflexivity | right; left; reflexivity | right; right; reflexivity].
Qed.

Lemma event_impact_cap target_date (self : FE.t) :
  exists v,
    FE._get_event_impact target_date self = (Returned v, self) /\ v <= 1.5.
Proof.
  unfold FE._get_event_impact.
  rewrite (bind_returns _ _ self _ self) by reflexivity.
  destruct (query_event _ _); eexists; (split; [reflexivity |]);
    [apply Q.le_min_r | lra].
Qed.

(** X3. Every forecast reports factors within fixed ranges, whatever the
    store holds and whichever path produced it: the trend factor lies within
    [0.8, 1.2], the lead-time factor is 0.95, 1, 1.05 or 1.1, the competitor
    factor is 0.95, 1 or 1.05, the event factor is at most 1.5 and the
    confidence lies within [0.3, 1]. The seasonality and day-of-week factors
    and the event factor from below are not limited. *)
Theorem forecast_factors_within_ranges
        now forest (self : FE.t) room_type target_date use_ml :
  exists forecast,
    FE.calculate_demand_forecast now forest room_type target_date use_ml self
    = (Returned forecast, self)
    /\ 0.8 <= FE.ForecastComponents.trend_factor (FE.Forecast.components forecast)
       <= 1.2
    /\ (let lead :=
          FE.ForecastComponents.lead_time_factor (FE.Forecast.components forecast) in
        lead == 0.95 \/ lead == 1 \/ lead == 1.05 \/ lead == 1.1)
    /\ (let competitor :=
          FE.ForecastComponents.competitor_factor (FE.Forecast.components forecast) in
        competitor == 0.95 \/ competitor == 1 \/ competitor == 1.05)
    /\ FE.ForecastComponents.event_factor (FE.Forecast.components forecast) <= 1.5
    /\ 0.3 <= FE.Forecast.confidence forecast <= 1.
Proof.
  pose proof (get_historical_bookings_returns now room_type self) as Hdata.
  set (data := List.map _ _) in Hdata.
  destruct (Nat.lt_ge_cases (length data) 14) as [Hshort|Hlong].
  - rewrite (forecast_short_series now forest room_type target_date use_ml self
               data Hdata Hshort).
    eexists. split; [reflexivity |]. cbn. split; [split; lra |].
    split; [right; now left |]. split; [right; now left |]. split; [lra |].
    split; lra.
  - destruct (forecast_long_series now forest room_type target_date use_ml self
                data Hdata Hlong)
      as (s & t & w & l & c & e & b & conf & _ & Ht & _ & Hl & Hc & He & _ & Hconf & Hf).
    eexists. split; [exact Hf |].
    cbn [FE.Forecast.components FE.Forecast.confidence
         FE.ForecastComponents.trend_factor FE.ForecastComponents.lead_time_factor
         FE.ForecastComponents.competitor_factor FE.ForecastComponents.event_factor].
    destruct (trend_factor_is_limited data self) as (t' & Ht' & Htrend & _).
    destruct (lead_time_impact_values now room_type target_date self)
      as (l' & Hl' & Hlead).
    destruct (competitor_impact_values room_type target_date self)
      as (c' & Hc' & Hcomp).
    destruct (event_impact_cap target_date self) as (e' & He' & Hevent).
    rewrite Ht in Ht'. rewrite Hl in Hl'. rewrite Hc in Hc'. rewrite He in He'.
    injection Ht' as <-. injection Hl' as <-. injection Hc' as <-.
    injection He' as <-.
    split; [exact Htrend |]. split; [exact Hlead |]. split; [exact Hcomp |].
    split; [exact Hevent |].
    destruct (confidence_within_range data
                (np_clip (b * s * t * w * c * e * l) 0.0 1.0) self)
      as (conf' & Hconf' & Hrange & _).
    rewrite Hconf in Hconf'. injection Hconf' as <-. exact Hrange.
Qed.

Lemma smoothing_fold_bounds (alpha lo hi : Q) (values : list Q) (start : Q) :
  0 <= alpha <= 1 ->
  lo <= start <= hi ->
  (forall v, In v values -> lo <= v <= hi) ->
  lo <= foldl (fun smoothed value => alpha * value + (1 - alpha) * smoothed)
              start values
  <= hi.
Proof.
  intros Halpha. revert start.
  induction values as [|v values IH]; intros start Hstart Hall; [exact Hstart |].
  cbn [foldl]. apply IH.
  - specialize (Hall v (or_introl eq_refl)). split; nra.
  - intros u Hu. apply Hall. now right.
Qed.

(** X4. Exponential smoothing never leaves the range of the series: with a
    smoothing constant in [0, 1], if every occupancy of a non-empty series
    lies in [lo, hi], so does the smoothed value; for an empty series the
    value is 0.75. *)
Theorem smoothing_stays_within_series (self : FE.t) historical_data (lo hi : Q) :
  0 <= FE.smoothing_alpha self <= 1 ->
  (forall dp, In dp historical_data -> lo <= FE.DataPoint.occupancy dp <= hi) ->
  exists v,
    FE._exponential_smoothing_forecast historical_data self = (Returned v, self)
    /\ (historical_data = [] -> v == 0.75)
    /\ (historical_data <> [] -> lo <= v <= hi).
Proof.
  intros Halpha Hall. unfold FE._exponential_smoothing_forecast.
  destruct historical_data as [|dp rest].
  - eexists. split; [reflexivity |]. split; [reflexivity | congruence].
  - cbn [List.map]. rewrite (bind_returns _ _ self _ self) by reflexivity.
    eexists. split; [reflexivity |]. split; [discriminate |]. intros _.
    apply smoothing_fold_bounds.
    + exact Halpha.
    + apply Hall. now left.
    + intros v Hv. apply in_map_iff in Hv. destruct Hv as [dp' [<- Hdp']].
      apply Hall. now right.
Qed.

(** The default smoothing constant over a three-point series within
    [0.2, 0.8]. *)
Lemma smoothing_stays_within_series_witness :
  exists v,
    FE._exponential_smoothing_forecast sample_series (FE.__init__ empty_db)
    = (Returned v, FE.__init__ empty_db)
    /\ (sample_series = [] -> v == 0.75)
    /\ (sample_series <> [] -> 0.2 <= v <= 0.8).
Proof.
  apply (smoothing_stays_within_series (FE.__init__ empty_db) sample_series 0.2 0.8).
  - simpl. lra.
  - intros dp [<-|[<-|[<-|[]]]]; simpl; lra.
Defined.

(** X5. The booking-velocity trend of a series of non-negative daily counts
    is "insufficient_data" below seven entries, and always "stable" for
    exactly seven entries: the first and the last seven are then the same
    days. *)
Theorem velocity_trend_of_a_single_week (daily_bookings : list Z) (self : FE.t) :
  (forall n, In n daily_bookings -> (0 <= n)%Z) ->
  exists trend,
    FE._calculate_velocity_trend daily_bookings self = (Returned trend, self)
    /\ ((length daily_bookings < 7)%nat -> trend = "insufficient_data"%string)
    /\ (length daily_bookings = 7%nat -> trend = "stable"%string).
Proof.
  intros Hnonneg. unfold FE._calculate_velocity_trend.
  destruct (length daily_bookings <? 7)%nat eqn:E.
  - eexists. split; [reflexivity |]. split; [reflexivity |].
    apply Nat.ltb_lt in E. lia.
  - apply Nat.ltb_ge in E.
    destruct (Nat.eq_dec (length daily_bookings) 7%nat) as [Hseven|Hmore].
    + rewrite Hseven. cbn [Nat.sub]. rewrite drop_0, take_ge by lia.
      assert (Hmean : 0 <= np_mean (List.map inject_Z daily_bookings)).
      { apply np_mean_nonneg. intros x Hx. apply in_map_iff in Hx.
        destruct Hx as [n [<- Hn]]. specialize (Hnonneg n Hn).
        unfold Qle, inject_Z. simpl. lia. }
      generalize dependent (np_mean (List.map inject_Z daily_bookings)).
      intros avg Havg.
      replace (Qltb (avg * 1.1) avg) with false
        by (symmetry; apply Qltb_ge; lra).
      replace (Qltb avg (avg * 0.9)) with false
        by (symmetry; apply Qltb_ge; lra).
      eexists. split; [reflexivity |]. split; [lia | reflexivity].
    + destruct (Qltb _ _); [| destruct (Qltb _ _)];
        (eexists; split; [reflexivity |]; split; intros; lia).
Qed.

(** Seven days with 3, 0, 5, 2, 9, 1 and 4 bookings. *)
Lemma velocity_trend_of_a_single_week_witness :
  exists trend,
    FE._calculate_velocity_trend [3; 0; 5; 2; 9; 1; 4]%Z (FE.__init__ empty_db)
    = (Returned trend, FE.__init__ empty_db)
    /\ ((length [3; 0; 5; 2; 9; 1; 4]%Z < 7)%nat -> trend = "insufficient_data"%string)
    /\ (length [3; 0; 5; 2; 9; 1; 4]%Z = 7%nat -> trend = "stable"%string).
Proof.
  apply (velocity_trend_of_a_single_week [3; 0; 5; 2; 9; 1; 4]%Z
           (FE.__init__ empty_db)).
  intros n Hn. repeat (destruct Hn as [<-|Hn]; [lia |]). destruct Hn.
Defined.

(** ** Accuracy tracking *)

Lemma datetime_leb_refl (a : datetime) : datetime_leb a a = true.
Proof.
  unfold datetime_leb. rewrite Z.eqb_refl, Z.leb_refl. apply orb_true_r.
Qed.

Lemma datetime_leb_total (a b : datetime) :
  datetime_leb a b = false -> datetime_leb b a = true.
Proof.
  unfold datetime_leb. intros H.
  apply orb_false_iff in H. destruct H as [H1 H2].
  apply Z.ltb_ge in H1. apply andb_false_iff in H2.
  destruct (Z.eqb_spec (dt_date b) (dt_date a)) as [Heq|Hne].
  - destruct H2 as [H2|H2].
    + apply Z.eqb_neq in H2. congruence.
    + apply Z.leb_gt in H2.
      replace (dt_micros b <=? dt_micros a)%Z with true
        by (symmetry; apply Z.leb_le; lia).
      apply orb_true_r.
  - replace (dt_date b <? dt_date a)%Z with true
      by (symmetry; apply Z.ltb_lt; lia).
    reflexivity.
Qed.

Lemma datetime_leb_trans (a b c : datetime) :
  datetime_leb a b = true -> datetime_leb b c = true -> datetime_leb a c = true.
Proof.
  unfold datetime_leb. intros H1 H2.
  apply orb_true_iff in H1. apply orb_true_iff in H2. apply orb_true_iff.
  rewrite andb_true_iff, Z.ltb_lt, Z.eqb_eq, Z.leb_le in *. lia.
Qed.

Lemma latest_forecast_none (rows : list ForecastData.t) :
  FE.latest_forecast rows = None <-> rows = [].
Proof.
  split; [| intros ->; reflexivity].
  unfold FE.latest_forecast.
  destruct rows as [|g rows _] using rev_ind; [reflexivity |].
  rewrite foldl_app. cbn [foldl].
  destruct (foldl _ None rows); [destruct (datetime_leb _ _) |]; discriminate.
Qed.

(** X6. The forecast row that accuracy tracking compares with is a most
    recent one: [latest_forecast] yields nothing only for an empty list, and
    otherwise a row of the list that no other row postdates. *)
Theorem latest_forecast_is_most_recent (rows : list ForecastData.t) :
  match FE.latest_forecast rows with
  | None => rows = []
  | Some f =>
      In f rows
      /\ forall g, In g rows ->
           datetime_leb (ForecastData.created_at g) (ForecastData.created_at f) = true
  end.
Proof.
  unfold FE.latest_forecast.
  induction rows as [|g rows IH] using rev_ind; [reflexivity |].
  rewrite foldl_app. cbn [foldl].
  destruct (foldl _ None rows) as [b|].
  - destruct IH as [Hin Hmax].
    destruct (datetime_leb (ForecastData.created_at g) (ForecastData.created_at b))
      eqn:E.
    + split; [apply in_or_app; now left |].
      intros h Hh. apply in_app_or in Hh. destruct Hh as [Hh|[<-|[]]];
        [now apply Hmax | exact E].
    + split; [apply in_or_app; right; now left |].
      intros h Hh. apply in_app_or in Hh. destruct Hh as [Hh|[<-|[]]].
      * apply datetime_leb_trans with (ForecastData.created_at b);
          [now apply Hmax | now apply datetime_leb_total].
      * apply datetime_leb_refl.
  - subst rows. split; [now left |].
    intros h [<-|[]]. apply datetime_leb_refl.
Qed.

Lemma Returned_inj {A} (a b : A) : Returned a = Returned b -> a = b.
Proof. now intros [= ->]. Qed.

(** X7. What accuracy tracking reports. The call leaves the engine
    unchanged, and returns [None] when the date has no forecast row for the
    category. Whenever it returns a report, there is such a row, and the
    report is made of the demand stored in a most recent one and of the
    realised occupancy, the bookings of the day over [max(inventory, 1)]:
    the absolute error is their distance, the percentage error is that
    distance over [max(occupancy, 0.01)] times 100, and the accuracy score is
    [max(0, 100 - percentage error)]. So both errors are non-negative, the
    score lies within [0, 100], and it is 100 when the prediction equals the
    occupancy. Nothing is said of a call that raises (as the code does on a
    row whose demand is NULL). *)
Theorem accuracy_report_ranges room_type actual_date (self : FE.t) :
  snd (FE.update_forecast_accuracy room_type actual_date self) = self
  /\ (query_forecasts (FE.session self) room_type actual_date = [] ->
      fst (FE.update_forecast_accuracy room_type actual_date self) = Returned None)
  /\ forall result,
       fst (FE.update_forecast_accuracy room_type actual_date self) = Returned result ->
       (result = None ->
        query_forecasts (FE.session self) room_type actual_date = [])
       /\ forall acc, result = Some acc ->
            (exists record,
                FE.latest_forecast
                  (query_forecasts (FE.session self) room_type actual_date)
                = Some record
                /\ FE.Accuracy.predicted_demand acc
                   = ForecastData.forecasted_demand record)
            /\ FE.Accuracy.actual_occupancy acc
               = inject_Z (count_bookings (FE.session self) room_type actual_date)
                 / inject_Z (Z.max (count_inventory (FE.session self) room_type) 1)
            /\ FE.Accuracy.absolute_error acc
               = Qabs (FE.Accuracy.predicted_demand acc
                       - FE.Accuracy.actual_occupancy acc)
            /\ FE.Accuracy.percentage_error acc
               = FE.Accuracy.absolute_error acc
                 / Qmax (FE.Accuracy.actual_occupancy acc) 0.01 * 100
            /\ FE.Accuracy.accuracy_score acc
               = Qmax 0 (100 - FE.Accuracy.percentage_error acc)
            /\ 0 <= FE.Accuracy.absolute_error acc
            /\ 0 <= FE.Accuracy.percentage_error acc
            /\ 0 <= FE.Accuracy.accuracy_score acc <= 100
            /\ (FE.Accuracy.predicted_demand acc == FE.Accuracy.actual_occupancy acc ->
                FE.Accuracy.accuracy_score acc == 100).
Proof.
  unfold FE.update_forecast_accuracy.
  rewrite (bind_returns _ _ self _ self) by reflexivity.
  rewrite (bind_returns _ _ self _ self) by reflexivity.
  rewrite (bind_returns _ _ self _ self)
    by (apply py_div_returns, guarded_inventory_nonzero).
  rewrite (bind_returns _ _ self _ self) by reflexivity.
  pose proof (latest_forecast_none
                (query_forecasts (FE.session self) room_type actual_date)) as Hlatest.
  destruct (FE.latest_forecast _) as [record|].
  - rewrite (bind_returns _ _ self _ self)
      by (apply py_div_returns, guarded_occupancy_nonzero).
    unfold ret. cbn [fst snd].
    split; [reflexivity |]. split.
    { intros Hnil. apply Hlatest in Hnil. discriminate Hnil. }
    intros result Hresult. apply Returned_inj in Hresult. subst result.
    split; [discriminate |].
    intros acc Hacc. apply (inj Some) in Hacc. subst acc.
    cbn [FE.Accuracy.absolute_error FE.Accuracy.percentage_error
         FE.Accuracy.accuracy_score FE.Accuracy.predicted_demand
         FE.Accuracy.actual_occupancy].
    split; [exists record; split; reflexivity |].
    do 4 (split; [reflexivity |]).
    set (occupancy := inject_Z _ / inject_Z _).
    set (predicted := ForecastData.forecasted_demand record).
    set (error := Qabs (predicted - occupancy)).
    set (ratio := error / Qmax occupancy 0.01).
    assert (Herr : 0 <= error) by apply Qabs_nonneg.
    assert (Hden : 0 < Qmax occupancy 0.01)
      by (pose proof (Q.le_max_r occupancy 0.01); lra).
    assert (Hratio : 0 <= ratio)
      by (apply Qle_shift_div_l; [exact Hden | lra]).
    assert (Hperfect : predicted == occupancy -> ratio == 0).
    { intros Heq. assert (E : predicted - occupancy == 0) by lra.
      unfold ratio, error. rewrite E. change (Qabs 0) with 0.
      unfold Qdiv. ring. }
    clearbody ratio error occupancy predicted.
    split; [exact Herr |]. split; [lra |]. split.
    + destruct (Q.max_spec 0 (100 - ratio * 100)) as [[H Hmax]|[H Hmax]];
        rewrite Hmax; split; lra.
    + intros Heq. rewrite (Hperfect Heq). reflexivity.
  - unfold ret. cbn [fst snd].
    split; [reflexivity |]. split; [reflexivity |].
    intros result Hresult. apply Returned_inj in Hresult. subst result.
    split; [intros _; now apply Hlatest | discriminate].
Qed.

(** The sample store on 2024-04-09: a stored forecast of 0.8 against two
    bookings and no inventory row, hence an occupancy of 2 and a score of
    40. *)
Lemma accuracy_report_ranges_witness :
  exists acc,
    fst (FE.update_forecast_accuracy "Suite" 738985 (FE.__init__ suite_db))
    = Returned (Some acc)
    /\ FE.Accuracy.predicted_demand acc == 0.8
    /\ FE.Accuracy.actual_occupancy acc == 2
    /\ FE.Accuracy.accuracy_score acc == 40
    /\ 0 <= FE.Accuracy.accuracy_score acc <= 100.
Proof.
  eexists. split; [vm_compute; reflexivity |].
  split; [reflexivity |]. split; [reflexivity |]. split; [reflexivity |].
  destruct (accuracy_report_ranges "Suite" 738985%Z (FE.__init__ suite_db))
    as (_ & _ & Hreport).
  destruct (Hreport _ ltac:(vm_compute; reflexivity)) as (_ & Hacc).
  destruct (Hacc _ eq_refl) as (_ & _ & _ & _ & _ & _ & _ & Hscore & _).
  exact Hscore.
Defined.


(** ** Scenario generation beyond the default list *)

Lemma calculate_revenue_impact_returns room_type scenario_demand base_demand
      (self : FE.t) :
  exists impact,
    FE._calculate_revenue_impact room_type scenario_demand base_demand self
    = (Returned impact, self).
Proof.
  unfold FE._calculate_revenue_impact. cbn [bind gets ret].
  eexists. reflexivity.
Qed.

Lemma scenario_loop_returns room_type base_demand (self : FE.t) :
  0 <= base_demand ->
  forall scenarios locals scenario_results,
    match locals with
    | Some (demand, probability, _) =>
        0 <= demand /\ (probability == 0.2 \/ probability == 0.6)
    | None =>
        match scenarios with
        | [] => True
        | scenario :: _ => known_scenario scenario
        end
    end ->
    map_Forall (fun _ s => capped_scenario s) scenario_results ->
    exists result,
      FE.scenario_loop room_type base_demand scenarios locals scenario_results self
      = (Returned result, self)
      /\ dom result = dom scenario_results ∪ list_to_set scenarios
      /\ map_Forall (fun _ s => capped_scenario s) result.
Proof.
  intros Hbase scenarios.
  induction scenarios as [|scenario rest IH]; intros locals acc Hlocals Hacc.
  - exists acc. split; [reflexivity |]. split; [| exact Hacc].
    cbn [list_to_set]. now rewrite (right_id_L ∅ (∪)).
  - cbn [FE.scenario_loop].
    set (bound := if String.eqb scenario "low" then _ else _).
    assert (Hbound : exists demand probability description,
               bound = Some (demand, probability, description)
               /\ 0 <= demand /\ (probability == 0.2 \/ probability == 0.6)).
    { subst bound.
      destruct (String.eqb_spec scenario "low");
        [do 3 eexists; split; [reflexivity |]; split; [lra | now left] |].
      destruct (String.eqb_spec scenario "base");
        [do 3 eexists; split; [reflexivity |]; split; [lra | now right] |].
      destruct (String.eqb_spec scenario "high");
        [do 3 eexists; split; [reflexivity |]; split; [lra | now left] |].
      destruct locals as [[[demand probability] description]|].
      - do 3 eexists. split; [reflexivity | exact Hlocals].
      - destruct Hlocals as [?|[?|?]]; contradiction. }
    destruct Hbound as (demand & probability & description & -> & Hd & Hp).
    destruct (calculate_revenue_impact_returns room_type demand base_demand self)
      as [impact Himpact].
    rewrite (bind_returns _ _ _ _ _ Himpact).
    destruct (IH (Some (demand, probability, description))
                (<[scenario := {| FE.Scenario.demand := Qmin demand 1.0;
                                  FE.Scenario.probability := probability;
                                  FE.Scenario.description := description;
                                  FE.Scenario.revenue_impact := impact |}]> acc))
      as (result & Hres & Hdom & Hall).
    + split; assumption.
    + apply map_Forall_insert_2; [| exact Hacc].
      split; [| exact Hp]. cbn [FE.Scenario.demand].
      destruct (Q.min_spec demand 1.0) as [[H Hmin]|[H Hmin]]; rewrite Hmin; lra.
    + exists result. split; [exact Hres |]. split; [| exact Hall].
      rewrite Hdom, dom_insert_L. cbn [list_to_set].
      rewrite (comm_L (∪) {[scenario]} (dom acc)). now rewrite (assoc_L (∪)).
Qed.

(** X8. The scenario names need not be the default three. Whenever the list
    is empty or starts with one of low, base and high, scenario generation
    returns, with the engine unchanged, one entry for each distinct name of
    the list; every entry's demand is within [0, 1] and its probability is
    0.2 or 0.6, also for a name that is none of the three (it takes the
    values of the name before it). *)
Theorem scenarios_are_capped_for_any_list
        now forest (self : FE.t) room_type target_date scenarios :
  match scenarios with
  | [] => True
  | scenario :: _ => known_scenario scenario
  end ->
  exists result,
    FE.generate_demand_scenarios now forest room_type target_date scenarios self
    = (Returned result, self)
    /\ dom (FE.Scenarios.scenarios result) = (list_to_set scenarios : gset string)
    /\ forall name s,
         FE.Scenarios.scenarios result !! name = Some s ->
         0 <= FE.Scenario.demand s <= 1
         /\ (FE.Scenario.probability s == 0.2 \/ FE.Scenario.probability s == 0.6).
Proof.
  intros Hfirst. unfold FE.generate_demand_scenarios.
  destruct (forecast_returns_bounded now forest room_type target_date true self)
    as [forecast [Hf Hb]].
  rewrite (bind_returns _ _ _ _ _ Hf).
  destruct (scenario_loop_returns room_type (FE.Forecast.forecasted_demand forecast)
              self (proj1 Hb) scenarios None ∅ Hfirst (map_Forall_empty _))
    as (result & Hres & Hdom & Hall).
  rewrite (bind_returns _ _ _ _ _ Hres).
  eexists. split; [reflexivity |]. cbn [FE.Scenarios.scenarios].
  split; [rewrite Hdom, dom_empty_L; now rewrite (left_id_L ∅ (∪)) |].
  intros name s Hs. exact (Hall name s Hs).
Qed.

(** The list high, peak, low on the sample store. *)
Lemma scenarios_are_capped_for_any_list_witness :
  exists result,
    FE.generate_demand_scenarios sample_now sample_forest "Suite" 739000
      ["high"; "peak"; "low"]%string (FE.__init__ suite_db)
    = (Returned result, FE.__init__ suite_db)
    /\ dom (FE.Scenarios.scenarios result)
       = (list_to_set ["high"; "peak"; "low"]%string : gset string)
    /\ forall name s,
         FE.Scenarios.scenarios result !! name = Some s ->
         0 <= FE.Scenario.demand s <= 1
         /\ (FE.Scenario.probability s == 0.2 \/ FE.Scenario.probability s == 0.6).
Proof.
  apply (scenarios_are_capped_for_any_list sample_now sample_forest
           (FE.__init__ suite_db) "Suite" 739000%Z ["high"; "peak"; "low"]%string).
  right. right. reflexivity.
Defined.

(** X9. A list that starts with a name other than low, base and high makes
    scenario generation fail: the loop body reads [demand] before any branch
    has bound it, which raises UnboundLocalError; the engine is left
    unchanged. *)
Theorem unknown_first_scenario_raises
        now forest (self : FE.t) room_type target_date scenario rest :
  ~ known_scenario scenario ->
  FE.generate_demand_scenarios now forest room_type target_date
    (scenario :: rest) self
  = (Raised UnboundLocalError, self).
Proof.
  intros Hunknown. unfold FE.generate_demand_scenarios.
  destruct (forecast_returns_bounded now forest room_type target_date true self)
    as [forecast [Hf _]].
  rewrite (bind_returns _ _ _ _ _ Hf).
  apply bind_raises. cbn [FE.scenario_loop].
  destruct (String.eqb_spec scenario "low") as [E|_];
    [exfalso; apply Hunknown; now left |].
  destruct (String.eqb_spec scenario "base") as [E|_];
    [exfalso; apply Hunknown; right; now left |].
  destruct (String.eqb_spec scenario "high") as [E|_];
    [exfalso; apply Hunknown; right; now right |].
  reflexivity.
Qed.

(** The list medium, low on the sample store. *)
Lemma unknown_first_scenario_raises_witness :
  FE.generate_demand_scenarios sample_now sample_forest "Suite" 739000
    ["medium"; "low"]%string (FE.__init__ suite_db)
  = (Raised UnboundLocalError, FE.__init__ suite_db).
Proof.
  apply (unknown_first_scenario_raises sample_now sample_forest
           (FE.__init__ suite_db) "Suite" 739000%Z "medium"%string ["low"%string]).
  intros [H|[H|H]]; discriminate H.
Defined.


(** ** Days of the week without arrivals *)

(** A group of [group_occupancy] holds the occupancies of the points with
    that key, in series order; a key no point has is absent. *)
Lemma group_occupancy_lookup (key : date -> Z) (historical_data : list FE.DataPoint.t)
      (k : Z) :
  FE.group_occupancy key historical_data !! k
  = match List.filter (fun dp => (key (FE.DataPoint.date dp) =? k)%Z) historical_data with
    | [] => None
    | (_ :: _) as points => Some (List.map FE.DataPoint.occupancy points)
    end.
Proof.
  unfold FE.group_occupancy.
  induction historical_data as [|dp data IH] using rev_ind; [reflexivity |].
  rewrite foldl_app, List.filter_app. cbn [foldl List.filter].
  destruct (Z.eqb_spec (key (FE.DataPoint.date dp)) k) as [Hk|Hk].
  - rewrite Hk, lookup_insert_eq, IH.
    destruct (List.filter _ data) as [|p points]; [reflexivity |].
    simpl. now rewrite List.map_app.
  - rewrite lookup_insert_ne by exact Hk. rewrite IH, app_nil_r. reflexivity.
Qed.

Lemma same_weekday_in_window (start_date target_date : date) :
  exists d, (start_date <= d <= start_date + 6)%Z /\ weekday d = weekday target_date.
Proof.
  exists (start_date + (target_date - start_date) mod 7)%Z.
  pose proof (Z.mod_pos_bound (target_date - start_date) 7 ltac:(lia)).
  split; [lia |]. unfold weekday.
  replace (start_date + (target_date - start_date) mod 7 + 6)%Z
    with (start_date + 6 + (target_date - start_date) mod 7)%Z by lia.
  rewrite Z.add_mod_idemp_r by lia. f_equal. lia.
Qed.

Lemma np_clip_zero (x : Q) : x == 0 -> np_clip x 0.0 1.0 == 0.
Proof.
  intros Hx. unfold np_clip.
  destruct (Q.max_spec x 0.0) as [[H Hm]|[H Hm]];
    destruct (Q.min_spec (Qmax x 0.0) 1.0) as [[Hlt Hn]|[Hlt Hn]];
    rewrite Hn; rewrite Hm in *; lra.
Qed.

(** X10. The day-of-week factor can silence the forecast. For the engine as
    constructed, when no booking of the category arrived, within the 90-day
    window, on the weekday of the target date, the day-of-week factor is 0
    and the forecasted demand is 0, whatever the base demand (the model's
    prediction included) and the other factors are. *)
Theorem weekday_without_arrivals_forecasts_zero now forest (db : Session)
        room_type target_date use_ml :
  (forall d : date,
      (FE.today now - 90 <= d <= FE.today now)%Z ->
      weekday d = weekday target_date ->
      count_bookings db room_type d = 0%Z) ->
  exists forecast,
    FE.calculate_demand_forecast now forest room_type target_date use_ml
      (FE.__init__ db)
    = (Returned forecast, FE.__init__ db)
    /\ FE.ForecastComponents.day_of_week_factor (FE.Forecast.components forecast) == 0
    /\ FE.Forecast.forecasted_demand forecast == 0.
Proof.
  intros Hquiet.
  destruct (default_series_length now db room_type) as [data [Hdata [Hlen Hseries]]].
  destruct (forecast_long_series now forest room_type target_date use_ml
              (FE.__init__ db) data Hdata ltac:(lia))
    as (s & t & w & l & c & e & b & conf & _ & _ & Hdow & _ & _ & _ & _ & _ & Hf).
  assert (Hw : w == 0).
  { unfold FE._calculate_dow_factor in Hdow.
    destruct data as [|dp0 data0] eqn:Edata; [discriminate Hlen |].
    rewrite <- Edata in *. clear dp0 data0 Edata.
    rewrite group_occupancy_lookup in Hdow.
    destruct (List.filter _ data) as [|p points] eqn:Efilter.
    - exfalso.
      destruct (same_weekday_in_window (FE.today now - 90) target_date)
        as [d [Hd Hwd]].
      assert (Hin : In (occupancy_point db room_type d)
                       (List.filter (fun dp => (weekday (FE.DataPoint.date dp)
                                                =? weekday target_date)%Z) data)).
      { apply List.filter_In. split.
        - rewrite Hseries. apply in_map, list_elem_of_In, elem_of_seqZ. lia.
        - cbn [occupancy_point FE.DataPoint.date]. now apply Z.eqb_eq. }
      rewrite Efilter in Hin. destruct Hin.
    - injection Hdow as <-.
      assert (Hmean : 0 <= np_mean (List.map FE.DataPoint.occupancy (p :: points)) <= 0).
      { apply np_mean_bounds; [discriminate |].
        intros x Hx. apply in_map_iff in Hx. destruct Hx as [dp [<- Hdp]].
        rewrite <- Efilter in Hdp. apply List.filter_In in Hdp.
        destruct Hdp as [Hdp Hkey]. apply Z.eqb_eq in Hkey.
        rewrite Hseries in Hdp. apply in_map_iff in Hdp.
        destruct Hdp as [d [<- Hd]].
        apply list_elem_of_In, elem_of_seqZ in Hd.
        cbn [occupancy_point FE.DataPoint.date FE.DataPoint.occupancy] in *.
        rewrite (Hquiet d ltac:(lia) Hkey).
        unfold Qdiv. change (inject_Z 0) with 0. lra. }
      assert (Hzero : np_mean (List.map FE.DataPoint.occupancy (p :: points)) == 0)
        by lra.
      rewrite Hzero. unfold Qdiv. ring. }
  eexists. split; [exact Hf |].
  cbn [FE.Forecast.components FE.ForecastComponents.day_of_week_factor
       FE.Forecast.forecasted_demand].
  split; [exact Hw |]. apply np_clip_zero. rewrite Hw. ring.
Qed.

(** The store without any booking. *)
Lemma weekday_without_arrivals_forecasts_zero_witness :
  exists forecast,
    FE.calculate_demand_forecast sample_now sample_forest "Suite" 739000 true
      (FE.__init__ empty_db)
    = (Returned forecast, FE.__init__ empty_db)
    /\ FE.ForecastComponents.day_of_week_factor (FE.Forecast.components forecast) == 0
    /\ FE.Forecast.forecasted_demand forecast == 0.
Proof.
  apply (weekday_without_arrivals_forecasts_zero sample_now sample_forest empty_db
           "Suite" 739000%Z true).
  intros d _ _. reflexivity.
Defined.


(** ** What a price depends on *)

Lemma bind_outcome_congr {S A B} (m : M S A) (k : A -> M S B) (s s' : S) :
  read_only m ->
  fst (m s) = fst (m s') ->
  (forall a, fst (k a s) = fst (k a s')) ->
  fst (bind m k s) = fst (bind m k s').
Proof.
  intros Hm Heq Hk. unfold bind.
  pose proof (Hm s) as H1. pose proof (Hm s') as H2.
  destruct (m s) as [[a|e] s1], (m s') as [[a'|e'] s1'];
    cbn [fst snd] in *; subst; try discriminate.
  - injection Heq as <-. apply Hk.
  - injection Heq as <-. reflexivity.
Qed.

Section PricingInputs.

Variable now : datetime.
Variables self self' : PE.t.
Hypothesis Hagree : pricing_inputs_agree self self'.

Lemma get_base_rate_agrees room_type :
  fst (PE.get_base_rate room_type self) = fst (PE.get_base_rate room_type self').
Proof.
  destruct Hagree as (Hrt & _).
  cbv [PE.get_base_rate bind gets ret query_room_type fst]. now rewrite Hrt.
Qed.

Lemma calculate_demand_fallback_agrees room_type target_date :
  fst (PE._calculate_demand_fallback room_type target_date self)
  = fst (PE._calculate_demand_fallback room_type target_date self').
Proof.
  destruct Hagree as (_ & Hinv & Hbk & _).
  cbv [PE._calculate_demand_fallback List.map for_each bind gets ret
       count_bookings count_inventory fst].
  now rewrite Hinv, Hbk.
Qed.

Lemma get_forecasted_demand_agrees room_type target_date :
  fst (PE.get_forecasted_demand room_type target_date self)
  = fst (PE.get_forecasted_demand room_type target_date self').
Proof.
  pose proof (calculate_demand_fallback_agrees room_type target_date) as Hfallback.
  destruct Hagree as (_ & _ & _ & _ & _ & Hfd & _).
  unfold PE.get_forecasted_demand.
  rewrite (bind_returns _ _ self _ self) by reflexivity.
  rewrite (bind_returns _ _ self' _ self') by reflexivity.
  unfold query_forecasts. rewrite Hfd.
  destruct (head _); [reflexivity | exact Hfallback].
Qed.

Lemma get_competitor_index_agrees room_type target_date :
  fst (PE.get_competitor_index room_type target_date self)
  = fst (PE.get_competitor_index room_type target_date self').
Proof.
  destruct Hagree as (Hrt & _ & _ & Hcr & _).
  unfold PE.get_competitor_index.
  rewrite (bind_returns _ _ _ _ _ (get_base_rate_returns room_type self)).
  rewrite (bind_returns _ _ _ _ _ (get_base_rate_returns room_type self')).
  rewrite (bind_returns _ _ self _ self) by reflexivity.
  rewrite (bind_returns _ _ self' _ self') by reflexivity.
  unfold stored_base_rate, query_room_type, query_competitor_rates.
  rewrite Hrt, Hcr.
  destruct (List.filter _ (competitor_rates _)); [reflexivity |].
  destruct (List.map _ _); reflexivity.
Qed.

Lemma get_event_multiplier_agrees target_date :
  fst (PE.get_event_multiplier target_date self)
  = fst (PE.get_event_multiplier target_date self').
Proof.
  destruct Hagree as (_ & _ & _ & _ & Hem & _).
  cbv [PE.get_event_multiplier bind gets ret query_event fst]. now rewrite Hem.
Qed.

Lemma calculate_time_factor_agrees target_date lead_time_days :
  fst (PE.calculate_time_factor now target_date lead_time_days self)
  = fst (PE.calculate_time_factor now target_date lead_time_days self').
Proof.
  destruct Hagree as (_ & _ & _ & _ & _ & _ & _ & Hmax).
  unfold PE.calculate_time_factor.
  destruct (_ <=? 0)%Z; [reflexivity |].
  rewrite (bind_returns _ _ self _ self) by reflexivity.
  rewrite (bind_returns _ _ self' _ self') by reflexivity.
  rewrite Hmax. unfold py_div, bind.
  destruct (Qeq_bool _ 0); reflexivity.
Qed.

Lemma get_floor_ceiling_agrees room_type :
  fst (PE.get_floor_ceiling room_type self)
  = fst (PE.get_floor_ceiling room_type self').
Proof.
  destruct Hagree as (Hrt & _).
  rewrite !get_floor_ceiling_returns. cbn [fst].
  unfold stored_base_rate, query_room_type. now rewrite Hrt.
Qed.

(** The outcome of a pricing call is determined by the tables it reads, the
    baseline, the maximum lead time and the coefficients in effect, however
    the latter come about. *)
Lemma calculate_dynamic_price_agrees room_type target_date params params' :
  PE.override params "alpha" (PE.alpha self)
  = PE.override params' "alpha" (PE.alpha self') ->
  PE.override params "beta" (PE.beta self)
  = PE.override params' "beta" (PE.beta self') ->
  PE.override params "gamma" (PE.gamma self)
  = PE.override params' "gamma" (PE.gamma self') ->
  PE.override params "delta" (PE.delta self)
  = PE.override params' "delta" (PE.delta self') ->
  fst (PE.calculate_dynamic_price now room_type target_date params self)
  = fst (PE.calculate_dynamic_price now room_type target_date params' self').
Proof.
  intros Ha Hb Hg Hd. unfold PE.calculate_dynamic_price.
  do 4 (rewrite (bind_returns _ _ self _ self) by reflexivity).
  do 4 (rewrite (bind_returns _ _ self' _ self') by reflexivity).
  cbv beta zeta. rewrite Ha, Hb, Hg, Hd.
  apply bind_outcome_congr;
    [apply get_base_rate_read_only | apply get_base_rate_agrees | intros base_rate].
  apply bind_outcome_congr;
    [apply get_forecasted_demand_read_only | apply get_forecasted_demand_agrees
    | intros demand].
  apply bind_outcome_congr;
    [apply get_competitor_index_read_only | apply get_competitor_index_agrees
    | intros index].
  apply bind_outcome_congr;
    [apply get_event_multiplier_read_only | apply get_event_multiplier_agrees
    | intros event].
  apply bind_outcome_congr;
    [apply calculate_time_factor_read_only | apply calculate_time_factor_agrees
    | intros time].
  apply bind_outcome_congr;
    [apply get_floor_ceiling_read_only | apply get_floor_ceiling_agrees
    | intros bounds].
  destruct Hagree as (_ & _ & _ & _ & _ & _ & Hbl & _).
  rewrite (bind_returns _ _ self _ self) by reflexivity.
  rewrite (bind_returns _ _ self' _ self') by reflexivity.
  rewrite Hbl. reflexivity.
Qed.

End PricingInputs.

Lemma override_lookup (params : gmap string Q) (key : string) (dflt : Q) :
  PE.override (Some params) key dflt = default dflt (params !! key).
Proof.
  unfold PE.override. destruct (size params =? 0)%nat eqn:E; [| reflexivity].
  apply Nat.eqb_eq, map_size_empty_iff in E. subst params.
  now rewrite lookup_empty.
Qed.

(** X11. A what-if call prices exactly as the engine would after
    [update_coefficients] with the same values: for every dictionary of
    overrides, [calculate_dynamic_price] with the overrides returns (or
    raises) what [update_coefficients] followed by a call without overrides
    does. Only the latter leaves the new coefficients in the engine. *)
Theorem override_prices_like_updated_engine
        now (self : PE.t) room_type target_date (params : gmap string Q) :
  fst (PE.calculate_dynamic_price now room_type target_date (Some params) self)
  = fst ((_ <- PE.update_coefficients (params !! "alpha"%string)
                 (params !! "beta"%string) (params !! "gamma"%string)
                 (params !! "delta"%string);
          PE.calculate_dynamic_price now room_type target_date None) self).
Proof.
  cbv [bind PE.update_coefficients modify].
  apply calculate_dynamic_price_agrees.
  - repeat split; reflexivity.
  - apply override_lookup.
  - apply override_lookup.
  - apply override_lookup.
  - apply override_lookup.
Qed.

(** X12. Saving prices does not feed back into pricing. The call returns,
    adds one history row per price record, leaves the coefficients as they
    were, and every later pricing call returns (or raises) what it would have
    without the save. Nothing is checked against the rows already stored:
    saving the same list again adds the rows again. *)
Theorem saved_prices_do_not_change_pricing
        now (self : PE.t) (pricing_data : list PE.PriceInfo.t) channel source :
  exists self',
    PE.save_pricing_to_history pricing_data channel source self = (Returned tt, self')
    /\ length (price_history (PE.session self'))
       = (length (price_history (PE.session self)) + length pricing_data)%nat
    /\ List.map PriceHistory.published_rate (price_history (PE.session self'))
       = List.map PriceHistory.published_rate (price_history (PE.session self))
         ++ List.map PE.PriceInfo.final_price pricing_data
    /\ (PE.alpha self', PE.beta self', PE.gamma self', PE.delta self')
       = (PE.alpha self, PE.beta self, PE.gamma self, PE.delta self)
    /\ (forall room_type target_date params,
          fst (PE.calculate_dynamic_price now room_type target_date params self')
          = fst (PE.calculate_dynamic_price now room_type target_date params self))
    /\ exists self'',
         PE.save_pricing_to_history pricing_data channel source self'
         = (Returned tt, self'')
         /\ length (price_history (PE.session self''))
            = (length (price_history (PE.session self))
               + 2 * length pricing_data)%nat.
Proof.
  eexists. split; [reflexivity |].
  cbn [PE.session PE.alpha PE.beta PE.gamma PE.delta price_history].
  split; [now rewrite length_app, length_map |].
  split; [rewrite List.map_app, List.map_map; reflexivity |].
  split; [reflexivity |].
  split.
  - intros room_type target_date params.
    apply calculate_dynamic_price_agrees; [repeat split; reflexivity | | | |];
      reflexivity.
  - eexists. split; [reflexivity |].
    cbn [PE.session price_history]. rewrite !length_app, !length_map. lia.
Qed.


(** ** Prices over a period *)

Lemma for_each_exists {S A B} (body : A -> M S B) (P : A -> B -> Prop)
      (s : S) (l : list A) :
  (forall x, In x l -> exists y, body x s = (Returned y, s) /\ P x y) ->
  exists ys, for_each l body s = (Returned ys, s) /\ Forall2 P l ys.
Proof.
  induction l as [|x l IH]; intros Hbody.
  - exists []. split; [reflexivity | constructor].
  - destruct (Hbody x ltac:(now left)) as (y & Hy & HP).
    destruct IH as (ys & Hys & Hall); [intros z Hz; apply Hbody; now right |].
    exists (y :: ys). split; [| now constructor].
    cbn [for_each].
    rewrite (bind_returns _ _ _ _ _ Hy), (bind_returns _ _ _ _ _ Hys).
    reflexivity.
Qed.

Lemma calculate_dynamic_price_labels
      now room_type target_date override_params (self : PE.t) :
  PE.max_lead_time self <> 0%Z ->
  exists r,
    PE.calculate_dynamic_price now room_type target_date override_params self
    = (Returned r, self)
    /\ PE.PriceInfo.room_type r = room_type
    /\ PE.PriceInfo.date r = target_date.
Proof.
  intros Hmax. unfold PE.calculate_dynamic_price.
  do 4 (rewrite (bind_returns _ _ self _ self) by reflexivity).
  rewrite (bind_returns _ _ _ _ _ (get_base_rate_returns room_type self)).
  destruct (get_forecasted_demand_returns room_type target_date self) as [v1 H1].
  destruct (get_competitor_index_returns room_type target_date self) as [v2 H2].
  destruct (get_event_multiplier_returns target_date self) as [v3 H3].
  destruct (calculate_time_factor_returns now target_date None self Hmax) as [v4 H4].
  rewrite (bind_returns _ _ _ _ _ H1), (bind_returns _ _ _ _ _ H2),
    (bind_returns _ _ _ _ _ H3), (bind_returns _ _ _ _ _ H4).
  rewrite (bind_returns _ _ _ _ _ (get_floor_ceiling_returns room_type self)).
  rewrite (bind_returns _ _ self _ self) by reflexivity.
  eexists. split; [reflexivity |]. split; reflexivity.
Qed.

(** The prices of a period: one record per day, in date order, each the
    record of the single-date call. *)
Lemma calculate_prices_for_period_returns
      now room_type start_date end_date override_params (self : PE.t) :
  PE.max_lead_time self <> 0%Z ->
  exists prices,
    PE.calculate_prices_for_period now room_type start_date end_date
      override_params self
    = (Returned prices, self)
    /\ List.map PE.PriceInfo.date prices = date_range start_date end_date
    /\ forall r, In r prices ->
         PE.PriceInfo.room_type r = room_type
         /\ PE.calculate_dynamic_price now room_type (PE.PriceInfo.date r)
              override_params self
            = (Returned r, self).
Proof.
  intros Hmax. unfold PE.calculate_prices_for_period.
  destruct (for_each_exists
              (fun d => PE.calculate_dynamic_price now room_type d override_params)
              (fun d r =>
                 PE.calculate_dynamic_price now room_type d override_params self
                 = (Returned r, self)
                 /\ PE.PriceInfo.room_type r = room_type
                 /\ PE.PriceInfo.date r = d)
              self (date_range start_date end_date))
    as (prices & Hprices & Hall).
  { intros d _.
    destruct (calculate_dynamic_price_labels now room_type d override_params
                self Hmax) as (r & Hr & Hlabels).
    exists r. split; [exact Hr |]. split; [exact Hr | exact Hlabels]. }
  exists prices. split; [exact Hprices |]. clear Hprices.
  generalize dependent (date_range start_date end_date). intros days Hall.
  induction Hall as [|d r days rs (Hr & Hroom & Hdate) _ IH].
  - split; [reflexivity | intros r []].
  - destruct IH as [IHdates IHeach]. split.
    + cbn [List.map]. now rewrite Hdate, IHdates.
    + intros r' [<-|Hin]; [| now apply IHeach].
      split; [exact Hroom | now rewrite Hdate].
Qed.

Lemma date_range_length (start_date end_date : date) :
  length (date_range start_date end_date) = Z.to_nat (end_date - start_date + 1).
Proof. unfold date_range. apply length_seqZ. Qed.

(** X13. The prices of a period are the single-date prices, one per day
    from the start date to the end date inclusive and in that order: the
    list has [end - start + 1] records (none when the end precedes the
    start), record [i] is what [calculate_dynamic_price] returns for day
    [start + i], and the engine is unchanged. *)
Theorem period_prices_are_the_daily_prices
        now (self : PE.t) room_type start_date end_date override_params :
  PE.max_lead_time self <> 0%Z ->
  exists prices,
    PE.calculate_prices_for_period now room_type start_date end_date
      override_params self
    = (Returned prices, self)
    /\ length prices = Z.to_nat (end_date - start_date + 1)
    /\ ((end_date < start_date)%Z -> prices = [])
    /\ forall (i : nat) r,
         prices !! i = Some r ->
         PE.calculate_dynamic_price now room_type (start_date + Z.of_nat i)%Z
           override_params self
         = (Returned r, self).
Proof.
  intros Hmax.
  destruct (calculate_prices_for_period_returns now room_type start_date end_date
              override_params self Hmax) as (prices & Hprices & Hdates & Heach).
  assert (Hlen : length prices = Z.to_nat (end_date - start_date + 1))
    by (rewrite <- date_range_length, <- Hdates; now rewrite length_map).
  exists prices. split; [exact Hprices |]. split; [exact Hlen |]. split.
  - intros Hempty. apply length_zero_iff_nil. lia.
  - intros i r Hi.
    assert (Hdate : PE.PriceInfo.date r = (start_date + Z.of_nat i)%Z).
    { assert (Hmap : List.map PE.PriceInfo.date prices !! i
                     = Some (PE.PriceInfo.date r))
        by (rewrite list_lookup_fmap_Some; exists r; now split).
      rewrite Hdates in Hmap. unfold date_range in Hmap.
      apply lookup_seqZ in Hmap. lia. }
    rewrite <- Hdate. apply Heach.
    apply list_elem_of_In, (list_elem_of_lookup_2 _ i). exact Hi.
Qed.

(** The week from 2024-04-24 on the sample store. *)
Lemma period_prices_are_the_daily_prices_witness :
  exists prices,
    PE.calculate_prices_for_period sample_now "Suite" 739000 739006 None
      (PE.__init__ suite_db)
    = (Returned prices, PE.__init__ suite_db)
    /\ length prices = Z.to_nat (739006 - 739000 + 1)
    /\ ((739006 < 739000)%Z -> prices = [])
    /\ forall (i : nat) r,
         prices !! i = Some r ->
         PE.calculate_dynamic_price sample_now "Suite" (739000 + Z.of_nat i)%Z
           None (PE.__init__ suite_db)
         = (Returned r, PE.__init__ suite_db).
Proof.
  apply (period_prices_are_the_daily_prices sample_now (PE.__init__ suite_db)
           "Suite" 739000%Z 739006%Z None).
  discriminate.
Defined.

Lemma reprice_loop_returns now (self : PE.t) target_date end_date :
  PE.max_lead_time self <> 0%Z ->
  forall all_room_types results,
    (forall name prices, results !! name = Some prices ->
       List.map PE.PriceInfo.date prices = date_range target_date end_date) ->
    exists result,
      PE.reprice_loop now all_room_types target_date end_date results self
      = (Returned result, self)
      /\ dom result
         = dom results ∪ list_to_set (List.map RoomType.name all_room_types)
      /\ forall name prices, result !! name = Some prices ->
           List.map PE.PriceInfo.date prices = date_range target_date end_date.
Proof.
  intros Hmax all_room_types.
  induction all_room_types as [|room_type rest IH]; intros results Hresults.
  - exists results. split; [reflexivity |]. split; [| exact Hresults].
    cbn [List.map list_to_set]. now rewrite (right_id_L ∅ (∪)).
  - cbn [PE.reprice_loop].
    destruct (calculate_prices_for_period_returns now (RoomType.name room_type)
                target_date end_date None self Hmax)
      as (prices & Hprices & Hdates & _).
    rewrite (bind_returns _ _ _ _ _ Hprices).
    destruct (IH (<[RoomType.name room_type := prices]> results))
      as (result & Hresult & Hdom & Hall).
    + intros name prices' Hlookup.
      destruct (decide (RoomType.name room_type = name)) as [<-|Hne].
      * rewrite lookup_insert_eq in Hlookup. injection Hlookup as <-. exact Hdates.
      * rewrite lookup_insert_ne in Hlookup by exact Hne. now apply (Hresults name).
    + exists result. split; [exact Hresult |]. split; [| exact Hall].
      rewrite Hdom, dom_insert_L. cbn [List.map list_to_set].
      rewrite (comm_L (∪) {[RoomType.name room_type]} (dom results)).
      now rewrite (assoc_L (∪)).
Qed.

(** X14. Repricing covers every room type of the store and
    [days_ahead + 1] days: the result has one entry per distinct room-type
    name, and each entry holds the prices of the days from the target date
    (today when none is given) to [days_ahead] days later, both included;
    the engine is unchanged. *)
Theorem reprice_covers_every_room_type
        now (self : PE.t) (target_date : option date) (days_ahead : Z) :
  PE.max_lead_time self <> 0%Z ->
  exists results,
    PE.reprice_all_rooms now target_date days_ahead self = (Returned results, self)
    /\ dom results
       = (list_to_set (List.map RoomType.name (room_types (PE.session self)))
          : gset string)
    /\ forall name prices,
         results !! name = Some prices ->
         length prices = Z.to_nat (days_ahead + 1)
         /\ List.map PE.PriceInfo.date prices
            = seqZ (default (PE.today now) target_date) (days_ahead + 1).
Proof.
  intros Hmax. unfold PE.reprice_all_rooms.
  rewrite (bind_returns _ _ self _ self) by reflexivity.
  set (start_date := match target_date with None => PE.today now | Some d => d end).
  destruct (reprice_loop_returns now self start_date (start_date + days_ahead)%Z
              Hmax (room_types (PE.session self)) ∅)
    as (results & Hresults & Hdom & Hall).
  { intros name prices Hlookup. rewrite lookup_empty in Hlookup. discriminate. }
  exists results. split; [exact Hresults |]. split.
  - rewrite Hdom, dom_empty_L. now rewrite (left_id_L ∅ (∪)).
  - intros name prices Hlookup. specialize (Hall name prices Hlookup).
    assert (Hrange : date_range start_date (start_date + days_ahead)
                     = seqZ start_date (days_ahead + 1))
      by (unfold date_range; f_equal; lia).
    rewrite Hrange in Hall.
    replace (default (PE.today now) target_date) with start_date
      by (subst start_date; now destruct target_date).
    split; [| exact Hall].
    rewrite <- (length_map PE.PriceInfo.date), Hall. apply length_seqZ.
Qed.

(** The default call on the sample store: 31 days from today on. *)
Lemma reprice_covers_every_room_type_witness :
  exists results,
    PE.reprice_all_rooms sample_now None 30 (PE.__init__ suite_db)
    = (Returned results, PE.__init__ suite_db)
    /\ dom results
       = (list_to_set (List.map RoomType.name
                         (room_types (PE.session (PE.__init__ suite_db))))
          : gset string)
    /\ forall name prices,
         results !! name = Some prices ->
         length prices = Z.to_nat (30 + 1)
         /\ List.map PE.PriceInfo.date prices
            = seqZ (default (PE.today sample_now) None) (30 + 1).
Proof.
  apply (reprice_covers_every_room_type sample_now (PE.__init__ suite_db) None 30%Z).
  discriminate.
Defined.


(** ** The time factor and the only failure of a pricing call *)

(** X15. With a positive [max_lead_time] the time factor is returned and
    lies within [0, 0.1]: it is 0 for a lead time of zero or fewer days,
    [lead / max_lead_time * 0.1] up to the maximum lead time, and 0.1 from
    there on. The lead time is the one passed, or the days from today to the
    target date. *)
Theorem time_factor_within_ten_percent
        now (self : PE.t) target_date (lead_time_days : option Z) :
  (0 < PE.max_lead_time self)%Z ->
  exists v,
    PE.calculate_time_factor now target_date lead_time_days self = (Returned v, self)
    /\ 0 <= v <= 0.1
    /\ ((default (target_date - PE.today now)%Z lead_time_days <= 0)%Z -> v == 0)
    /\ ((0 < default (target_date - PE.today now)%Z lead_time_days
         <= PE.max_lead_time self)%Z ->
        v == inject_Z (default (target_date - PE.today now)%Z lead_time_days)
             / inject_Z (PE.max_lead_time self) * 0.1)
    /\ ((PE.max_lead_time self
         <= default (target_date - PE.today now)%Z lead_time_days)%Z ->
        v == 0.1).
Proof.
  intros Hmax. unfold PE.calculate_time_factor.
  replace (match lead_time_days with
           | Some n => n
           | None => (target_date - PE.today now)%Z
           end)
    with (default (target_date - PE.today now)%Z lead_time_days)
    by now destruct lead_time_days.
  set (lead := default (target_date - PE.today now)%Z lead_time_days).
  destruct (Z.leb_spec lead 0) as [Hlead|Hlead].
  - eexists. split; [reflexivity |]. split; [split; lra |].
    split; [reflexivity |]. split; intros; lia.
  - assert (Hpos : 0 < inject_Z (PE.max_lead_time self))
      by (unfold Qlt, inject_Z; simpl; lia).
    assert (Hne : ~ inject_Z (PE.max_lead_time self) == 0) by lra.
    rewrite (bind_returns _ _ self _ self) by reflexivity.
    rewrite (bind_returns _ _ self _ self (py_div_returns _ _ self Hne)).
    eexists. split; [reflexivity |].
    assert (Hratio : 0 <= inject_Z lead / inject_Z (PE.max_lead_time self)).
    { apply Qle_shift_div_l; [exact Hpos |].
      unfold Qle, inject_Z; simpl; lia. }
    assert (Hbelow : (lead <= PE.max_lead_time self)%Z ->
                     inject_Z lead / inject_Z (PE.max_lead_time self) <= 1).
    { intros H. apply Qle_shift_div_r; [exact Hpos |].
      rewrite Qmult_1_l. now rewrite <- Zle_Qle. }
    assert (Habove : (PE.max_lead_time self <= lead)%Z ->
                     1 <= inject_Z lead / inject_Z (PE.max_lead_time self)).
    { intros H. apply Qle_shift_div_l; [exact Hpos |].
      rewrite Qmult_1_l. now rewrite <- Zle_Qle. }
    generalize dependent (inject_Z lead / inject_Z (PE.max_lead_time self)).
    intros ratio Hratio Hbelow Habove.
    destruct (Q.min_spec ratio 1.0) as [[H Hmin]|[H Hmin]]; rewrite Hmin.
    + split; [split; lra |]. split; [intros; lia |].
      split; [intros _; reflexivity |].
      intros Hge. specialize (Habove Hge). lra.
    + split; [split; lra |]. split; [intros; lia |].
      split; [| intros _; reflexivity].
      intros [_ Hle]. specialize (Hbelow Hle).
      assert (E : ratio == 1) by lra. rewrite E. reflexivity.
Qed.

(** The engine as constructed, 73 days ahead of a 365-day scale. *)
Lemma time_factor_within_ten_percent_witness :
  exists v,
    PE.calculate_time_factor sample_now 739063 None (PE.__init__ empty_db)
    = (Returned v, PE.__init__ empty_db)
    /\ 0 <= v <= 0.1
    /\ ((default (739063 - PE.today sample_now)%Z None <= 0)%Z -> v == 0)
    /\ ((0 < default (739063 - PE.today sample_now)%Z None
         <= PE.max_lead_time (PE.__init__ empty_db))%Z ->
        v == inject_Z (default (739063 - PE.today sample_now)%Z None)
             / inject_Z (PE.max_lead_time (PE.__init__ empty_db)) * 0.1)
    /\ ((PE.max_lead_time (PE.__init__ empty_db)
         <= default (739063 - PE.today sample_now)%Z None)%Z ->
        v == 0.1).
Proof.
  apply (time_factor_within_ten_percent sample_now (PE.__init__ empty_db)
           739063%Z None).
  reflexivity.
Defined.

(** X16. When a pricing call divides by zero. [calculate_dynamic_price]
    raises ZeroDivisionError exactly when [max_lead_time] is 0 and the
    target date lies after today: the division of the lead time by
    [max_lead_time] is the only one of the call that can raise it (a zero
    inventory count is guarded by [max(total_rooms, 1)], and the competitor
    ratio is a numpy division). The engine is then unchanged. *)
Theorem zero_division_exactly_on_zero_lead_time_scale
        now (self : PE.t) room_type target_date override_params :
  ((PE.max_lead_time self = 0%Z /\ (PE.today now < target_date)%Z) ->
   PE.calculate_dynamic_price now room_type target_date override_params self
   = (Raised ZeroDivisionError, self))
  /\ (fst (PE.calculate_dynamic_price now room_type target_date override_params
             self)
      = Raised ZeroDivisionError ->
      PE.max_lead_time self = 0%Z /\ (PE.today now < target_date)%Z).
Proof.
  unfold PE.calculate_dynamic_price.
  do 4 (rewrite (bind_returns _ _ self _ self) by reflexivity).
  rewrite (bind_returns _ _ _ _ _ (get_base_rate_returns room_type self)).
  destruct (get_forecasted_demand_returns room_type target_date self) as [v1 H1].
  destruct (get_competitor_index_returns room_type target_date self) as [v2 H2].
  destruct (get_event_multiplier_returns target_date self) as [v3 H3].
  rewrite (bind_returns _ _ _ _ _ H1), (bind_returns _ _ _ _ _ H2),
    (bind_returns _ _ _ _ _ H3).
  split.
  - intros [Hmax Hlead].
    now rewrite (bind_raises _ _ _ _ _
                   (calculate_time_factor_zero_max now target_date self Hmax Hlead)).
  - intros Hraised.
    destruct (Z.eq_dec (PE.max_lead_time self) 0%Z) as [Hzero|Hmax];
      [destruct (Z.lt_ge_cases (PE.today now) target_date) as [Hlead|Hpast];
         [now split |] |];
      exfalso.
    + assert (Htime : PE.calculate_time_factor now target_date None self
                      = (Returned 0, self)).
      { unfold PE.calculate_time_factor.
        replace (target_date - PE.today now <=? 0)%Z with true
          by (symmetry; apply Z.leb_le; lia).
        reflexivity. }
      rewrite (bind_returns _ _ _ _ _ Htime) in Hraised.
      rewrite (bind_returns _ _ _ _ _ (get_floor_ceiling_returns room_type self))
        in Hraised.
      rewrite (bind_returns _ _ self _ self) in Hraised by reflexivity.
      discriminate Hraised.
    + destruct (calculate_time_factor_returns now target_date None self Hmax)
        as [v4 H4].
      rewrite (bind_returns _ _ _ _ _ H4) in Hraised.
      rewrite (bind_returns _ _ _ _ _ (get_floor_ceiling_returns room_type self))
        in Hraised.
      rewrite (bind_returns _ _ self _ self) in Hraised by reflexivity.
      discriminate Hraised.
Qed.

(** A price for ten days ahead from the engine whose [max_lead_time] is 0. *)
Lemma zero_division_exactly_on_zero_lead_time_scale_witness :
  PE.calculate_dynamic_price sample_now "Suite" 739000 None zero_scale_engine
  = (Raised ZeroDivisionError, zero_scale_engine).
Proof.
  apply (proj1 (zero_division_exactly_on_zero_lead_time_scale sample_now
                  zero_scale_engine "Suite" 739000%Z None)).
  split; reflexivity.
Defined.

(** ** The demand a price is computed from *)

Lemma count_bookings_nonneg (db : Session) room_type (d : date) :
  (0 <= count_bookings db room_type d)%Z.
Proof. unfold count_bookings. lia. Qed.

Lemma np_mean_of_four (a b c d : Q) : np_mean [a; b; c; d] == (a + b + c + d) / 4.
Proof.
  unfold np_mean, Qsum, Qlen. cbn [foldl length].
  change (inject_Z (Z.of_nat 4)) with 4.
  pose proof (Qred_correct (0 + a)) as H1.
  pose proof (Qred_correct (Qred (0 + a) + b)) as H2.
  pose proof (Qred_correct (Qred (Qred (0 + a) + b) + c)) as H3.
  pose proof (Qred_correct (Qred (Qred (Qred (0 + a) + b) + c) + d)) as H4.
  generalize dependent (Qred (Qred (Qred (Qred (0 + a) + b) + c) + d)).
  generalize dependent (Qred (Qred (Qred (0 + a) + b) + c)).
  generalize dependent (Qred (Qred (0 + a) + b)).
  generalize dependent (Qred (0 + a)).
  intros s1 H1 s2 H2 s3 H3 s4 H4.
  assert (E : s4 == a + b + c + d) by lra.
  rewrite E. reflexivity.
Qed.

(** X17. The demand that enters a price. When the store has a forecast row
    for the category and date, it is the demand stored in the first such
    row, taken as it is. Otherwise it is the fallback
    [min(mean(counts) / max(total_rooms, 1), 1.0)], where [counts] are the
    bookings of the category arriving 7, 14, 21 and 28 days before the
    target date; it lies within [0, 1]. In both cases the result is
    determined by the store alone: an engine with other coefficients,
    another [baseline_demand] or [max_lead_time] over the same store returns
    the same value, so the [return self.baseline_demand] that ends the
    fallback is never reached. The engine is unchanged. *)
Theorem demand_for_pricing_from_store_or_bookings
        (self : PE.t) room_type (target_date : date) :
  exists v,
    PE.get_forecasted_demand room_type target_date self = (Returned v, self)
    /\ match head (query_forecasts (PE.session self) room_type target_date) with
       | Some forecast => v = ForecastData.forecasted_demand forecast
       | None =>
           v == Qmin (inject_Z
                        (count_bookings (PE.session self) room_type (target_date - 7)
                         + count_bookings (PE.session self) room_type (target_date - 14)
                         + count_bookings (PE.session self) room_type (target_date - 21)
                         + count_bookings (PE.session self) room_type (target_date - 28))
                      / 4
                      / inject_Z (Z.max (count_inventory (PE.session self) room_type) 1))
                     1.0
           /\ 0 <= v <= 1
       end
    /\ forall self' : PE.t,
         PE.session self' = PE.session self ->
         PE.get_forecasted_demand room_type target_date self' = (Returned v, self').
Proof.
  assert (Hsame : forall self' : PE.t,
             PE.session self' = PE.session self ->
             PE.get_forecasted_demand room_type target_date self'
             = (fst (PE.get_forecasted_demand room_type target_date self), self')).
  { intros self' Hsession. unfold PE.get_forecasted_demand.
    rewrite (bind_returns _ _ self _ self) by reflexivity.
    rewrite (bind_returns _ _ self' _ self') by reflexivity.
    rewrite Hsession. destruct (head _); [reflexivity |].
    cbv [PE._calculate_demand_fallback List.map for_each bind gets ret fst].
    now rewrite Hsession. }
  enough (Hvalue : exists v,
             PE.get_forecasted_demand room_type target_date self = (Returned v, self)
             /\ match head (query_forecasts (PE.session self) room_type target_date)
                with
                | Some forecast => v = ForecastData.forecasted_demand forecast
                | None =>
                    v == Qmin (inject_Z
                                 (count_bookings (PE.session self) room_type
                                    (target_date - 7)
                                  + count_bookings (PE.session self) room_type
                                      (target_date - 14)
                                  + count_bookings (PE.session self) room_type
                                      (target_date - 21)
                                  + count_bookings (PE.session self) room_type
                                      (target_date - 28))
                               / 4
                               / inject_Z
                                   (Z.max (count_inventory (PE.session self) room_type)
                                          1))
                              1.0
                    /\ 0 <= v <= 1
                end).
  { destruct Hvalue as (v & Hv & Hmatch).
    exists v. split; [exact Hv |]. split; [exact Hmatch |].
    intros self' Hsession. rewrite (Hsame self' Hsession), Hv. reflexivity. }
  clear Hsame.
  unfold PE.get_forecasted_demand.
  rewrite (bind_returns _ _ self _ self) by reflexivity.
  destruct (head _) as [forecast|]; [eexists; split; reflexivity |].
  cbv [PE._calculate_demand_fallback List.map for_each bind gets ret].
  eexists. split; [reflexivity |].
  replace (target_date - 7 * 1)%Z with (target_date - 7)%Z by lia.
  replace (target_date - 7 * 2)%Z with (target_date - 14)%Z by lia.
  replace (target_date - 7 * 3)%Z with (target_date - 21)%Z by lia.
  replace (target_date - 7 * 4)%Z with (target_date - 28)%Z by lia.
  set (c1 := count_bookings _ _ (target_date - 7)).
  set (c2 := count_bookings _ _ (target_date - 14)).
  set (c3 := count_bookings _ _ (target_date - 21)).
  set (c4 := count_bookings _ _ (target_date - 28)).
  set (rooms := inject_Z (Z.max _ 1)).
  assert (Hrooms : 0 < rooms)
    by (subst rooms; unfold Qlt, inject_Z; simpl; lia).
  assert (Hmean : np_mean [inject_Z c1; inject_Z c2; inject_Z c3; inject_Z c4]
                  == inject_Z (c1 + c2 + c3 + c4) / 4)
    by (rewrite np_mean_of_four, !inject_Z_plus; reflexivity).
  assert (Hcounts : 0 <= inject_Z (c1 + c2 + c3 + c4)).
  { pose proof (count_bookings_nonneg (PE.session self) room_type (target_date - 7)).
    pose proof (count_bookings_nonneg (PE.session self) room_type (target_date - 14)).
    pose proof (count_bookings_nonneg (PE.session self) room_type (target_date - 21)).
    pose proof (count_bookings_nonneg (PE.session self) room_type (target_date - 28)).
    unfold Qle, inject_Z; simpl. subst c1 c2 c3 c4. lia. }
  rewrite Hmean. split; [reflexivity |].
  assert (Hratio : 0 <= inject_Z (c1 + c2 + c3 + c4) / 4 / rooms).
  { apply Qle_shift_div_l; [exact Hrooms |].
    rewrite Qmult_0_l. apply Qle_shift_div_l; lra. }
  generalize dependent (inject_Z (c1 + c2 + c3 + c4) / 4 / rooms).
  intros ratio Hratio.
  destruct (Q.min_spec ratio 1.0) as [[H Hmin]|[H Hmin]]; rewrite Hmin; split; lra.
Qed.

(** The sample store on 2024-04-16: no forecast row for the day; the Suite
    bookings of 2024-04-09 give the counts 2, 0, 0 and 0, there is no
    inventory row, and the demand is 0.5. *)
Example fallback_demand_on_sample_store :
  exists v,
    PE.get_forecasted_demand "Suite" 738992 (PE.__init__ suite_db)
    = (Returned v, PE.__init__ suite_db)
    /\ v == 0.5
    /\ ~ v == PE.baseline_demand (PE.__init__ suite_db).
Proof.
  eexists. split; [vm_compute; reflexivity |].
  split; [reflexivity | discriminate].
Qed.

(** ** The revenue impact of a scenario *)

(** X18. The revenue impact of a scenario is computed from the scenario's
    demand before the cap at 100%. With the default list, the base scenario
    has no revenue difference, the low scenario's revenue is 0.8 times and
    the high scenario's 1.3 times the base revenue
    [base_forecast * rooms * base_rate], also when the high scenario's
    demand itself was capped at 1.0; for a base revenue of at least 1 the
    percentage impacts are -20, 0 and 30. *)
Theorem scenario_revenue_ignores_the_demand_cap
        now forest (self : FE.t) room_type target_date :
  exists result low base high,
    FE.generate_demand_scenarios now forest room_type target_date
      FE.default_scenarios self
    = (Returned result, self)
    /\ FE.Scenarios.scenarios result !! "low"%string = Some low
    /\ FE.Scenarios.scenarios result !! "base"%string = Some base
    /\ FE.Scenarios.scenarios result !! "high"%string = Some high
    /\ forall base_revenue,
         base_revenue
         = FE.Scenarios.base_forecast result
           * inject_Z (count_inventory (FE.session self) room_type)
           * stored_base_rate (FE.session self) room_type ->
         FE.RevenueImpact.base_revenue (FE.Scenario.revenue_impact base)
         == base_revenue
         /\ FE.RevenueImpact.revenue_difference (FE.Scenario.revenue_impact base) == 0
         /\ FE.RevenueImpact.percentage_impact (FE.Scenario.revenue_impact base) == 0
         /\ FE.RevenueImpact.scenario_revenue (FE.Scenario.revenue_impact low)
            == 0.8 * base_revenue
         /\ FE.RevenueImpact.scenario_revenue (FE.Scenario.revenue_impact high)
            == 1.3 * base_revenue
         /\ (1 <= base_revenue ->
             FE.RevenueImpact.percentage_impact (FE.Scenario.revenue_impact low)
             == -20
             /\ FE.RevenueImpact.percentage_impact (FE.Scenario.revenue_impact high)
                == 30).
Proof.
  unfold FE.generate_demand_scenarios.
  destruct (forecast_returns_bounded now forest room_type target_date true self)
    as [forecast [Hf Hb]].
  rewrite (bind_returns _ _ _ _ _ Hf).
  unfold FE.default_scenarios.
  cbn [FE.scenario_loop String.eqb Ascii.eqb Bool.eqb].
  unfold FE._calculate_revenue_impact. cbn [bind gets ret].
  do 4 eexists. split; [reflexivity |].
  cbn [FE.Scenarios.scenarios FE.Scenarios.base_forecast].
  split; [rewrite !lookup_insert_ne by discriminate; apply lookup_insert_eq |].
  split; [rewrite lookup_insert_ne by discriminate; apply lookup_insert_eq |].
  split; [apply lookup_insert_eq |].
  cbn [FE.Scenario.revenue_impact FE.RevenueImpact.base_revenue
       FE.RevenueImpact.scenario_revenue FE.RevenueImpact.revenue_difference
       FE.RevenueImpact.percentage_impact].
  fold (stored_base_rate (FE.session self) room_type).
  set (b := FE.Forecast.forecasted_demand forecast).
  set (rooms := inject_Z (count_inventory (FE.session self) room_type)).
  set (rate := stored_base_rate (FE.session self) room_type).
  intros base_revenue ->.
  split; [reflexivity |]. split; [ring |].
  split; [unfold Qdiv; ring |]. split; [ring |]. split; [ring |].
  intros Hbase.
  assert (Hmax : Qmax (b * rooms * rate) 1 == b * rooms * rate)
    by (apply Q.max_l; exact Hbase).
  assert (Hrate : ~ rate == 0) by (intros E; rewrite E in Hbase; lra).
  assert (Hrooms : ~ rooms == 0) by (intros E; rewrite E in Hbase; lra).
  assert (Hdemand : ~ b == 0) by (intros E; rewrite E in Hbase; lra).
  rewrite Hmax. split; field; repeat split; assumption.
Qed.

(** ** The constants in binary64

    The statements above are over exact rationals. For the constants they
    turn on, IEEE double-precision arithmetic gives the same answers. *)

Set Warnings "-inexact-float".

(** The scenario probabilities add up to exactly 1.0. *)
Example scenario_probabilities_binary64 :
  PrimFloat.eqb (PrimFloat.add (PrimFloat.add 0.2 0.6) 0.2) 1 = true.
Proof. vm_compute. reflexivity. Qed.

(** [1 + 2 * (0.5 - 1)] is exactly 0. *)
Example vanishing_factor_binary64 :
  PrimFloat.eqb (PrimFloat.add 1 (PrimFloat.mul 2 (PrimFloat.sub 0.5 1))) 0 = true.
Proof. vm_compute. reflexivity. Qed.

(** The two-decimal price 70.01 is below the floor [100.02 * 0.7]. *)
Example rounded_price_below_floor_binary64 :
  PrimFloat.ltb 70.01 (PrimFloat.mul 100.02 0.7) = true.
Proof. vm_compute. reflexivity. Qed.
